(** * LVGL value validators of ESPHome

    A shallow embedding of [esphome/components/lvgl/lv_validation.py]:
    the validators that turn one configuration value of a widget property
    into its canonical form, the mappers that emit the C++ expression for
    it, and the registries of fonts and components they record.

    Layout: [Py] models the part of the Python runtime the file relies on
    (dynamic values, exceptions, [str] methods, binary64 [float]);
    [cv] and [defines] model the collaborators the file imports;
    [lv_validation] is the file itself, function by function. *)

From Stdlib Require Import ZArith String Ascii List Lia Bool DecimalString.
From Stdlib Require Import QArith Qround.
From Stdlib Require Import Floats.SpecFloat.
From stdpp Require Import base strings gmap.

Set Warnings "-register-all,-notation-for-abbreviation".
Local Open Scope string_scope.
Local Open Scope Z_scope.

(* ===================================================================== *)
(** ** The Python runtime *)
(* ===================================================================== *)

Module Py.

(** Exceptions that cross the functions of the file. [Invalid] is
    [cv.Invalid] (voluptuous' validation error, with its message). *)
Inductive exn :=
| Invalid (msg : string)
| KeyError (key : string)
| TypeError
| ValueError
| OverflowError
| AttributeError.

Inductive result (A : Type) :=
| Ok (a : A)
| Raise (e : exn).
Arguments Ok {A} a.
Arguments Raise {A} e.

Definition bind {A B} (r : result A) (k : A -> result B) : result B :=
  match r with
  | Ok a => k a
  | Raise e => Raise e
  end.

(** Classes of declared entities that [cv.use_id] is asked for. *)
Inductive py_type := BinarySensor | ColorStruct | Font | Sensor | TextSensor.

#[global] Instance py_type_eq_dec : EqDecision py_type.
Proof. solve_decision. Defined.

(** Dynamically typed values: what the YAML loader hands to a validator,
    what validators return, and the expression objects mappers build. *)
Inductive value :=
| VNone
| VBool (b : bool)
| VInt (n : Z)
| VFloat (x : spec_float)
| VStr (s : string)
| VList (l : list value)
| VDict (d : gmap string value)
| VLambda (src : string)               (* cv.Lambda *)
| VID (name : string)                  (* core.ID *)
| VTimePeriod (ms : Z)                 (* TimePeriodMilliseconds *)
| VSchemaExtract                       (* the SCHEMA_EXTRACT sentinel *)
| VHexInt (n : Z)                      (* core.HexInt, a subclass of int *)
| VConstantLiteral (s : string)        (* lvcode.ConstantLiteral *)
| VStringLiteral (s : string)          (* cpp_generator.StringLiteral *)
| VRawExpression (s : string)          (* cpp_generator.RawExpression *)
| VMockObj (base : value)              (* cpp_generator.MockObj *)
| VLvExpr (attr : string) (args : list value).  (* lv_expr.attr(args) *)

(** [isinstance] tests used by the file. [bool] and [HexInt] are
    subclasses of [int]. *)
Definition isinstance_str (v : value) : bool :=
  match v with VStr _ => true | _ => false end.

Definition isinstance_int (v : value) : bool :=
  match v with VInt _ | VBool _ | VHexInt _ => true | _ => false end.

Definition isinstance_float (v : value) : bool :=
  match v with VFloat _ => true | _ => false end.

Definition isinstance_dict (v : value) : bool :=
  match v with VDict _ => true | _ => false end.

Definition isinstance_Lambda (v : value) : bool :=
  match v with VLambda _ => true | _ => false end.

(** [value == SCHEMA_EXTRACT]: the sentinel is a bare [object()], equal
    to itself only. *)
Definition is_SCHEMA_EXTRACT (v : value) : bool :=
  match v with VSchemaExtract => true | _ => false end.

(** [value == s] for a string literal [s]. *)
Definition eq_str (v : value) (s : string) : bool :=
  match v with VStr t => String.eqb t s | _ => false end.

(** The integer an [int] instance stands for. *)
Definition int_value (v : value) : option Z :=
  match v with
  | VInt n | VHexInt n => Some n
  | VBool b => Some (if b then 1 else 0)
  | _ => None
  end.

(** *** [str] methods (configuration text is ASCII; case mapping acts on
        the ASCII letters) *)

Definition lower_ascii (c : ascii) : ascii :=
  let n := nat_of_ascii c in
  if ((65 <=? n) && (n <=? 90))%nat then ascii_of_nat (n + 32) else c.

Definition upper_ascii (c : ascii) : ascii :=
  let n := nat_of_ascii c in
  if ((97 <=? n) && (n <=? 122))%nat then ascii_of_nat (n - 32) else c.

Fixpoint map_string (f : ascii -> ascii) (s : string) : string :=
  match s with
  | EmptyString => EmptyString
  | String c r => String (f c) (map_string f r)
  end.

Definition lower : string -> string := map_string lower_ascii.
Definition upper : string -> string := map_string upper_ascii.

(** [s.endswith(suffix)] *)
Definition endswith (s suffix : string) : bool :=
  let n := String.length s in
  let k := String.length suffix in
  (k <=? n)%nat && String.eqb (substring (n - k) k s) suffix.

(** [s.startswith(p)] *)
Definition startswith (s p : string) : bool := String.prefix p s.

(** [s[:-k]] *)
Definition drop_last (k : nat) (s : string) : string :=
  substring 0 (String.length s - k) s.

(** [s[k:]] *)
Definition drop_first (k : nat) (s : string) : string :=
  substring k (String.length s - k) s.

(** [sep.join(l)] *)
Fixpoint join (sep : string) (l : list string) : string :=
  match l with
  | [] => EmptyString
  | [x] => x
  | x :: r => (x ++ sep ++ join sep r)%string
  end.

(** [str(n)] for an [int]. *)
Definition str_int (n : Z) : string := NilZero.string_of_int (Z.to_int n).

(** *** [float]: IEEE 754 binary64, round to nearest even *)

Definition prec : Z := 53.
Definition emax : Z := 1024.

Definition fmul : spec_float -> spec_float -> spec_float := SFmul prec emax.
Definition fdiv : spec_float -> spec_float -> spec_float := SFdiv prec emax.
Definition fle : spec_float -> spec_float -> bool := SFleb.
Definition flt : spec_float -> spec_float -> bool := SFltb.

(** [float(n)] for an [int] in range. *)
Definition float_of_Z (n : Z) : spec_float := binary_normalize prec emax n 0 false.

(** Python floats are always well-formed binary64 numbers. *)
Definition valid_float (x : spec_float) : bool := valid_binary prec emax x.

(** [int(x)]: truncation toward zero; infinities and NaN raise. *)
Definition int_of_float (x : spec_float) : result Z :=
  match x with
  | S754_zero _ => Ok 0
  | S754_finite s m e => Ok (cond_Zopp s (Z.shiftl (Zpos m) e))
  | S754_infinity _ => Raise OverflowError
  | S754_nan => Raise ValueError
  end.

(** The rational a finite float denotes (0 for the others). *)
Definition Q_of_float (x : spec_float) : Q :=
  match x with
  | S754_finite s m e =>
      let q := if 0 <=? e then inject_Z (Zpos m * 2 ^ e)
               else Qmake (Zpos m) (Z.to_pos (2 ^ (- e))) in
      if s then Qopp q else q
  | _ => 0%Q
  end.

(** Float literals that occur in the file. *)
Definition f0_1 : spec_float := S754_finite false 7205759403792794 (-56).
Definition f10_0 : spec_float := S754_finite false 5629499534213120 (-49).
Definition f0_0 : spec_float := S754_zero false.
Definition f1_0 : spec_float := S754_finite false 4503599627370496 (-52).
Definition f360_0 : spec_float := S754_finite false 6333186975989760 (-44).

(** [float(v)] *)
Definition float_of_value_nostr (v : value) : option spec_float :=
  match v with
  | VFloat x => Some x
  | VInt n | VHexInt n => Some (float_of_Z n)
  | VBool b => Some (float_of_Z (if b then 1 else 0))
  | _ => None
  end.

(** *** [float(s)] and [int(s)] on decimal text

    Plain decimal notation, an optional sign, digits and an optional
    fraction; the float is the correctly rounded quotient of the digit
    string by its power of ten. Other notations Python reads (exponents,
    [inf], [nan], underscores, surrounding blanks) are outside the
    model and rejected. *)

Definition is_digit (c : ascii) : bool :=
  let n := nat_of_ascii c in ((48 <=? n) && (n <=? 57))%nat.

Fixpoint digits_value (acc : Z) (s : string) : option Z :=
  match s with
  | EmptyString => Some acc
  | String c r =>
      if is_digit c
      then digits_value (10 * acc + (Z.of_nat (nat_of_ascii c) - 48)) r
      else None
  end.

(** split at the first ["."] *)
Fixpoint split_dot (s : string) : string * option string :=
  match s with
  | EmptyString => (EmptyString, None)
  | String c r =>
      if Ascii.eqb c "."%char then (EmptyString, Some r)
      else let '(a, b) := split_dot r in (String c a, b)
  end.

Definition split_sign (s : string) : bool * string :=
  match s with
  | String "-"%char r => (true, r)
  | String "+"%char r => (false, r)
  | _ => (false, s)
  end.

Definition int_of_str (s : string) : option Z :=
  let '(neg, body) := split_sign s in
  match body with
  | EmptyString => None
  | _ => option_map (fun n => if neg then - n else n) (digits_value 0 body)
  end.

Definition float_of_str (s : string) : option spec_float :=
  let '(neg, body) := split_sign s in
  let '(ip, fp) := split_dot body in
  let fp := match fp with Some f => f | None => EmptyString end in
  match (ip ++ fp)%string with
  | EmptyString => None
  | ds =>
      match digits_value 0 ds with
      | Some n =>
          let x := fdiv (float_of_Z n)
                        (float_of_Z (10 ^ Z.of_nat (String.length fp))) in
          Some (if neg then SFopp x else x)
      | None => None
      end
  end.

Definition float_of_value (v : value) : option spec_float :=
  match v with
  | VStr s => float_of_str s
  | _ => float_of_value_nostr v
  end.

End Py.

(* ===================================================================== *)
(** ** [lvgl/helpers.py]: the resource-usage registries *)
(* ===================================================================== *)

Module helpers.
Import Py.

(** Modelled from the spec: the resource-usage accumulator, the
    process-wide state the validators run in. The three sets are the
    module-level [set()] objects of [helpers.py] (built-in fonts
    referenced, font assets referenced, companion components required);
    [declared] is the table of entities the configuration declares, which
    lookup by identifier reads. *)
Record state := mk_state {
  declared : gmap string py_type;
  lv_fonts_used : gset string;
  esphome_fonts_used : gset string;
  lvgl_components_required : gset string
}.

(** Computations that may raise and may update the registries; a raised
    exception keeps the updates made before it, as in Python. *)
Definition M (A : Type) : Type := state -> result A * state.

Definition ret {A} (a : A) : M A := fun st => (Ok a, st).
Definition raise {A} (e : exn) : M A := fun st => (Raise e, st).
Definition lift {A} (r : result A) : M A := fun st => (r, st).

Definition bindM {A B} (m : M A) (k : A -> M B) : M B :=
  fun st =>
    match m st with
    | (Ok a, st') => k a st'
    | (Raise e, st') => (Raise e, st')
    end.

Definition lv_fonts_used_add (f : string) : M unit :=
  fun st => (Ok tt,
    mk_state (declared st) ({[ f ]} ∪ lv_fonts_used st)
             (esphome_fonts_used st) (lvgl_components_required st)).

Definition esphome_fonts_used_add (f : string) : M unit :=
  fun st => (Ok tt,
    mk_state (declared st) (lv_fonts_used st)
             ({[ f ]} ∪ esphome_fonts_used st) (lvgl_components_required st)).

Definition lvgl_components_required_add (c : string) : M unit :=
  fun st => (Ok tt,
    mk_state (declared st) (lv_fonts_used st)
             (esphome_fonts_used st) ({[ c ]} ∪ lvgl_components_required st)).

End helpers.

Declare Scope py_scope.
Delimit Scope py_scope with py.
Notation "x <- m ;; k" := (helpers.bindM m (fun x => k))
  (at level 100, m at next level, right associativity) : py_scope.
Notation "m ;;; k" := (helpers.bindM m (fun _ => k))
  (at level 100, right associativity) : py_scope.
Notation "'let!' x ':=' r 'in' k" := (Py.bind r (fun x => k))
  (at level 10, x name, r at level 100, k at level 200) : py_scope.

(* ===================================================================== *)
(** ** [esphome.config_validation], as far as the file calls it *)
(* ===================================================================== *)

Module cv.
Import Py helpers.
Local Open Scope py_scope.

(** Modelled from the spec: [cv.Any], the "any of" primitive of the
    schema-composition library. The alternatives are tried in order and
    the first that accepts the value decides; when none does, the first
    error is raised. *)
Fixpoint Any (vs : list (value -> M value)) (v : value) : M value :=
  match vs with
  | [] => raise (Invalid "no valid value found")
  | f :: rest =>
      fun st =>
        match f v st with
        | (Ok r, st') => (Ok r, st')
        | (Raise e, st') =>
            match Any rest v st' with
            | (Ok r, st'') => (Ok r, st'')
            | (Raise _, st'') => (Raise e, st'')
            end
        end
  end.

(** Modelled from the spec: [cv.percentage], the "percentage (0.0-1.0)"
    shape. A string with a percent sign is its number divided by 100, any
    other number is taken as it is; the result is a [float] that must lie
    between 0 and 1. *)
Definition percentage (v : value) : result value :=
  let parsed :=
    match v with
    | VStr s =>
        if endswith s "%"
        then option_map (fun x => fdiv x (float_of_Z 100))
                        (float_of_str (drop_last 1 s))
        else float_of_str s
    | _ => float_of_value_nostr v
    end in
  match parsed with
  | None => Raise (Invalid "invalid number")
  | Some x =>
      if fle f0_0 x && fle x f1_0 then Ok (VFloat x)
      else Raise (Invalid "percentage must be between 0% and 100%")
  end.

(** Modelled from the spec: [cv.int_], the "integer (pixels)" shape.
    An [int] passes unchanged, a [float] without a fractional part and
    decimal text are converted. *)
Definition int_ (v : value) : result value :=
  match v with
  | VInt _ | VBool _ | VHexInt _ => Ok v
  | VFloat x =>
      match int_of_float x with
      | Ok n => if SFeqb (float_of_Z n) x then Ok (VInt n)
                else Raise (Invalid "expected integer without fractional part")
      | Raise _ => Raise (Invalid "expected integer")
      end
  | VStr s =>
      match int_of_str s with
      | Some n => Ok (VInt n)
      | None => Raise (Invalid "expected integer")
      end
  | _ => Raise (Invalid "expected integer")
  end.

(** Modelled from the spec: [cv.float_range(min, max)], a "float in
    [min, max]"; a value outside fails with a range error. *)
Definition float_range (lo hi : spec_float) (v : value) : result value :=
  match float_of_value v with
  | None => Raise (Invalid "expected float")
  | Some x =>
      if fle lo x && fle x hi then Ok (VFloat x)
      else Raise (Invalid "value out of range")
  end.

(** Modelled from the spec: [cv.int_range(min, max)]. *)
Definition int_range (lo hi : Z) (v : value) : result value :=
  let! w := int_ v in
  match int_value w with
  | Some n => if (lo <=? n) && (n <=? hi) then Ok w
              else Raise (Invalid "value out of range")
  | None => Raise (Invalid "expected integer")
  end.

(** Modelled from the spec: [cv.one_of] with [lower=True], membership
    of the lower-cased text in a fixed vocabulary. *)
Definition one_of_lower (values : list string) (v : value) : result value :=
  match v with
  | VStr s =>
      if bool_decide (lower s ∈ values) then Ok (VStr (lower s))
      else Raise (Invalid "unknown value")
  | _ => Raise (Invalid "expected a string")
  end.

(** Modelled from the spec: [cv.use_id(type)], lookup by identifier of a
    declared entity of the required class; an identifier that does not
    resolve fails with an unknown-reference error. *)
Definition use_id (t : py_type) (v : value) : M value :=
  fun st =>
    match v with
    | VStr name | VID name =>
        match declared st !! name with
        | Some t' =>
            if bool_decide (t' = t) then (Ok (VID name), st)
            else (Raise (Invalid "ID does not refer to the required class"), st)
        | None => (Raise (Invalid "couldn't find ID"), st)
        end
    | _ => (Raise (Invalid "expected an ID"), st)
    end.

End cv.

(* ===================================================================== *)
(** ** [esphome.const], [cpp_generator], [lvcode], [lvgl/defines.py] *)
(* ===================================================================== *)

Module defines.
Import Py helpers.
Local Open Scope py_scope.

(** Modelled from the spec: the keys of the structured [{format, args}]
    map and the name of the companion color component ([esphome.const]). *)
Definition CONF_ARGS : string := "args".
Definition CONF_FORMAT : string := "format".
Definition CONF_COLOR : string := "color".

(** Modelled from the spec: [cg.safe_exp], the literal/expression builder;
    a string becomes a string literal (rendered escaped), other validated
    values are literals as they are. *)
Definition safe_exp (v : value) : value :=
  match v with
  | VStr s => VStringLiteral s
  | _ => v
  end.

(** Modelled from the spec: the source text of an emitted expression. A
    string literal is rendered by the literal-escaping utility
    ([escape], [cpp_string_escape]), the raw kinds as their text. *)
Definition expression_str
    (escape : value -> result string) (v : value) : result string :=
  match v with
  | VStringLiteral s => escape (VStr s)
  | VConstantLiteral s | VRawExpression s | VStr s => Ok s
  | _ => Raise TypeError
  end.

(** Modelled from the spec: the generic validator ([LValidator]), a
    validation rule, a target type, an optional dynamic-source capability
    with its accessor template, and a return mapper. *)
Record LValidator := mk_LValidator {
  validator : value -> M value;
  rtype : string;
  idtype : option py_type;
  idexpr : string;
  retmapper : option (value -> M value)
}.

(** Modelled from the spec: [LValidator.__call__]. A reference to a
    declared entity is resolved against the declared capability; any
    other input goes to the validation rule, whose failure propagates. *)
Definition LValidator_call (self : LValidator) (v : value) : M value :=
  match v, idtype self with
  | VID _, Some t => cv.use_id t v
  | _, _ => validator self v
  end.

(** Modelled from the spec: [LValidator.process]. A reference with the
    matching capability emits the accessor expression; otherwise the
    return mapper is applied to the validated value. *)
Definition LValidator_process (self : LValidator) (v : value) : M value :=
  match v, idtype self with
  | VID name, Some _ => ret (VRawExpression (name ++ "->" ++ idexpr self))
  | _, _ =>
      match retmapper self with
      | Some f => f v
      | None => ret (safe_exp v)
      end
  end.

(** Modelled from the spec: the constant-set mapper ([LvConstant]), a
    name prefix and its allowed suffixes. *)
Record LvConstant := mk_LvConstant {
  prefix : string;
  choices : list string
}.

(** Modelled from the spec: the rule of [LvConstant]. The input is
    upper-cased, an already present prefix is stripped, and the suffix
    must be one of the choices; numbers and structures are rejected. *)
Definition LvConstant_validator (c : LvConstant) (v : value) : M value :=
  if is_SCHEMA_EXTRACT v then ret (VList (map VStr (choices c)))
  else
    match v with
    | VStr s =>
        let u := upper s in
        let suffix :=
          if startswith u (prefix c)
          then drop_first (String.length (prefix c)) u else u in
        if existsb (String.eqb suffix) (choices c)
        then ret (VStr (prefix c ++ suffix))
        else raise (Invalid "unknown constant")
    | _ => raise (Invalid "expected a constant name")
    end.

(** Modelled from the spec: [LvConstant.one_of], the constant set as a
    validator; its token is emitted as a constant literal. *)
Definition one_of (c : LvConstant) : LValidator :=
  mk_LValidator (LvConstant_validator c) "uint32" None EmptyString
    (Some (fun v => ret match v with
                        | VStr s => VConstantLiteral s
                        | _ => v
                        end)).

(** Modelled from the spec: [helpers.requires_component], which records
    the companion component and then lets the core check that it is
    present ([check], [cv.requires_component]). *)
Definition requires_component
    (check : string -> value -> result value) (comp : string) (v : value)
  : M value :=
  lvgl_components_required_add comp ;;; lift (check comp v).

End defines.

(* ===================================================================== *)
(** ** [lvgl/lv_validation.py] *)
(* ===================================================================== *)

Module lv_validation.
Import Py helpers defines.
Local Open Scope py_scope.

(** [value] as text when it is a [str]. *)
Definition as_str (v : value) : option string :=
  match v with VStr s => Some s | _ => None end.

(** [int(value * k)] for an [int] constant [k]. *)
Definition int_times (v : value) (k : Z) : result Z :=
  match v with
  | VFloat x => int_of_float (fmul x (float_of_Z k))
  | _ =>
      match int_value v with
      | Some n => Ok (n * k)
      | None => Raise TypeError
      end
  end.

(** [f"lv_pct({int(p * 100)})"] *)
Definition lv_pct (p : value) : result value :=
  let! n := int_times p 100 in
  Ok (VStr ("lv_pct(" ++ str_int n ++ ")")).

Definition literal_mapper (v : value) : value :=
  match v with
  | VStr s => VConstantLiteral s
  | _ => v
  end.

Definition opacity_consts : LvConstant :=
  mk_LvConstant "LV_OPA_" ["TRANSP"; "COVER"].

Definition opacity_validator (v : value) : M value :=
  if is_SCHEMA_EXTRACT v then ret (VList (map VStr (choices opacity_consts)))
  else
    value <- cv.Any [ (fun x => lift (cv.percentage x));
                      LValidator_call (one_of opacity_consts) ] v ;;
    if isinstance_float value
    then n <- lift (int_times value 255) ;; ret (VInt n)
    else ret value.

Definition opacity : LValidator :=
  mk_LValidator opacity_validator "uint32" None EmptyString
    (Some (fun v => ret (literal_mapper v))).

Definition color (v : value) : M value :=
  if is_SCHEMA_EXTRACT v
  then ret (VList [VStr "hex color value"; VStr "color ID"])
  else if isinstance_int v then ret v
  else cv.use_id ColorStruct v.

Definition pixels_or_percent_validator (v : value) : result value :=
  if is_SCHEMA_EXTRACT v then Ok (VList [VStr "pixels"; VStr "..%"])
  else if isinstance_int v then cv.int_ v
  else let! p := cv.percentage v in lv_pct p.

Definition pixels_or_percent : LValidator :=
  mk_LValidator (fun v => lift (pixels_or_percent_validator v)) "uint32"
    None EmptyString (Some (fun v => ret (literal_mapper v))).

Definition zoom (v : value) : result value :=
  let! value := cv.float_range f0_1 f10_0 v in
  let! n := int_times value 256 in
  Ok (VInt n).

Definition size_validator (v : value) : result value :=
  if is_SCHEMA_EXTRACT v
  then Ok (VList [VStr "size_content"; VStr "pixels"; VStr "..%"])
  else
    let! value :=
      match as_str v with
      | Some s =>
          if endswith (lower s) "px" then cv.int_ (VStr (drop_last 2 s))
          else Ok v
      | None => Ok v
      end in
    match as_str value with
    | Some s =>
        if negb (endswith s "%") then
          if String.eqb (upper s) "SIZE_CONTENT"
          then Ok (VStr "LV_SIZE_CONTENT")
          else Raise (Invalid
                 "must be 'size_content', a pixel position or a percentage")
        else
          (* a [str] is no [int] *)
          let! p := cv.percentage value in lv_pct p
    | None =>
        if isinstance_int value then cv.int_ value
        else let! p := cv.percentage value in lv_pct p
    end.

Definition size : LValidator :=
  mk_LValidator (fun v => lift (size_validator v)) "uint32" None EmptyString
    (Some (fun v => ret (literal_mapper v))).

Definition radius_consts : LvConstant := mk_LvConstant "LV_RADIUS_" ["CIRCLE"].

Definition radius_validator (v : value) : M value :=
  if is_SCHEMA_EXTRACT v then ret (VList (map VStr (choices radius_consts)))
  else
    value <- cv.Any [ LValidator_call size;
                      (fun x => lift (cv.percentage x));
                      LValidator_call (one_of radius_consts) ] v ;;
    if isinstance_float value
    then n <- lift (int_times value 255) ;; ret (VInt n)
    else ret value.

Definition radius : LValidator :=
  mk_LValidator radius_validator "uint32" None EmptyString
    (Some (fun v => ret (literal_mapper v))).

Definition stop_value (v : value) : result value := cv.int_range 0 255 v.

(** [x.total_milliseconds] *)
Definition total_milliseconds (x : value) : result value :=
  match x with
  | VTimePeriod ms => Ok (VInt ms)
  | _ => Raise AttributeError
  end.

(** [value[key]] on a [dict] *)
Definition getitem (d : gmap string value) (key : string) : result value :=
  match d !! key with
  | Some x => Ok x
  | None => Raise (KeyError key)
  end.

(** The elements [for x in v] runs over: the items of a list, the
    characters of a string, the keys of a dict (taken in key order). *)
Fixpoint chars (s : string) : list value :=
  match s with
  | EmptyString => []
  | String c r => VStr (String c EmptyString) :: chars r
  end.

Definition py_iter (v : value) : result (list value) :=
  match v with
  | VList l => Ok l
  | VStr s => Ok (chars s)
  | VDict d => Ok (map (fun kv => VStr (fst kv)) (map_to_list d))
  | _ => Raise TypeError
  end.

Section Collaborators.

(** What the file imports and the specification leaves open: the table of
    built-in fonts, the core's component check, the duration parser, the
    C++ string escaper, the lambda validator, the identifier and angle
    validators, [cv.boolean], [cv.string], [cv.float_], and [str] of the
    values that are neither text nor integers. *)
Variable LV_FONTS : list string.
Variable cv_requires_component : string -> value -> result value.
Variable positive_time_period_milliseconds : value -> result value.
Variable cpp_string_escape : value -> result string.
Variable returning_lambda : value -> result value.
Variable validate_id_name : value -> result value.
Variable cv_angle : value -> result value.
Variable cv_boolean cv_string cv_float_ : value -> result value.
Variable str_other : value -> string.

(** [str(v)], [f"{v}"] *)
Definition py_str (v : value) : string :=
  match v with
  | VStr s => s
  | VInt n | VHexInt n => str_int n
  | VBool b => if b then "True" else "False"
  | VNone => "None"
  | VID name => name
  | _ => str_other v
  end.

Definition color_retmapper (v : value) : M value :=
  if isinstance_Lambda v then lift (returning_lambda v)
  else
    match int_value v with
    | Some n =>
        let hexval := VHexInt n in
        ret (VLvExpr "color_hex" [hexval])
    | None =>
        (* Must be an id *)
        lvgl_components_required_add CONF_COLOR ;;;
        ret (VLvExpr "color_from" [VMockObj v])
    end.

Definition lv_color : LValidator :=
  mk_LValidator color "lv_color_t" None EmptyString (Some color_retmapper).

Definition angle (v : value) : result value :=
  let! a := cv_angle v in
  let! value := cv.float_range f0_0 f360_0 a in
  let! n := int_times value 10 in
  Ok (VInt n).

Definition id_name (v : value) : result value :=
  if is_SCHEMA_EXTRACT v then Ok (VStr "id") else validate_id_name v.

Definition lv_bool : LValidator :=
  mk_LValidator (fun v => lift (cv_boolean v)) "bool" (Some BinarySensor)
    "get_state()" (Some (fun v => ret (literal_mapper v))).

Definition lvms_validator_ (v : value) : result value :=
  let value := if eq_str v "never" then VStr "2147483647ms" else v in
  positive_time_period_milliseconds value.

Definition lv_milliseconds : LValidator :=
  mk_LValidator (fun v => lift (lvms_validator_ v)) "int32" None EmptyString
    (Some (fun x => lift (total_milliseconds x))).

(** [TextValidator]: the base object built by [__init__], and the two
    methods the class overrides. *)
Definition TextValidator_base : LValidator :=
  mk_LValidator (fun v => lift (cv_string v)) "const char *"
    (Some TextSensor) "get_state().c_str()"
    (Some (fun s => ret (safe_exp (VStr (py_str s))))).

Definition TextValidator_call (v : value) : M value :=
  if isinstance_dict v then ret v
  else LValidator_call TextValidator_base v.

Definition TextValidator_process (v : value) : M value :=
  match v with
  | VDict d =>
      lift (let! a := getitem d CONF_ARGS in
            let! xs := py_iter a in
            let args := map py_str xs in
            let arg_expr := join "," args in
            let! f := getitem d CONF_FORMAT in
            let! format_str := cpp_string_escape f in
            Ok (VStr ("str_sprintf(" ++ format_str ++ ", "
                        ++ arg_expr ++ ").c_str()")))
  | _ => LValidator_process TextValidator_base v
  end.

Definition lv_text : value -> M value := TextValidator_call.

Definition lv_float : LValidator :=
  mk_LValidator (fun v => lift (cv_float_ v)) "float" (Some Sensor)
    "get_state()" None.

Definition lv_int : LValidator :=
  mk_LValidator (fun v => lift (cv.int_ v)) "int" (Some Sensor)
    "get_state()" None.

Definition is_lv_font (font : value) : bool :=
  match as_str font with
  | Some s => bool_decide (lower s ∈ LV_FONTS)
  | None => false
  end.

(** [LvFont]: the two closures of [__init__] and the overridden
    [process]. *)
Definition lv_builtin_font (v : value) : M value :=
  fontval <- lift (cv.one_of_lower LV_FONTS v) ;;
  lv_fonts_used_add (py_str fontval) ;;;
  ret fontval.

Definition LvFont_validator (v : value) : M value :=
  if is_SCHEMA_EXTRACT v then ret (VList (map VStr LV_FONTS))
  else if is_lv_font v then lv_builtin_font v
  else
    fontval <- cv.use_id Font v ;;
    esphome_fonts_used_add (py_str fontval) ;;;
    requires_component cv_requires_component "font" fontval.

Definition lv_font : LValidator :=
  mk_LValidator LvFont_validator "lv_font_t" None EmptyString None.

Definition LvFont_process (v : value) : M value :=
  if is_lv_font v
  then ret (VConstantLiteral ("&lv_font_" ++ py_str v))
  else ret (VConstantLiteral (py_str v ++ "_engine->get_lv_font()")).

End Collaborators.

End lv_validation.

(* ===================================================================== *)
(** ** Vocabulary of the statements, and sample collaborators *)
(* ===================================================================== *)

Module samples.
Import Py helpers defines lv_validation.

(** The error the size validator raises itself. *)
Definition size_error : exn :=
  Invalid "must be 'size_content', a pixel position or a percentage".

(** The floats 0.5, 0.05 and 2.0. *)
Definition f0_5 : spec_float := S754_finite false 4503599627370496 (-53).
Definition f0_05 : spec_float := S754_finite false 7205759403792794 (-57).
Definition f2_0 : spec_float := S754_finite false 4503599627370496 (-51).

(** The state of a fresh run: nothing declared, nothing recorded. *)
Definition st0 : state := mk_state ∅ ∅ ∅ ∅.

(** [f] has a describe mode: on the sentinel it returns [shapes], in any
    state, and leaves the state as it was. *)
Definition describes (f : value -> M value) (shapes : value) : Prop :=
  forall st, f VSchemaExtract st = (Ok shapes, st).

(** A sample table of built-in fonts. *)
Definition LV_FONTS_sample : list string := ["montserrat_14"; "unscii_8"].

(** Modelled from the spec: the core's component check, here with every
    component present. *)
Definition requires_sample (comp : string) (v : value) : result value := Ok v.

(** [str] of the remaining objects, a placeholder. *)
Definition str_other_sample (v : value) : string := "<object>".

Definition dquote : string := String (ascii_of_nat 34) EmptyString.

(** Modelled from the spec: the literal-escaping utility, on text that
    needs no escape: the text between double quotes. *)
Definition escape_sample (v : value) : result string :=
  match v with
  | VStr s => Ok (dquote ++ s ++ dquote)
  | _ => Raise TypeError
  end.

(** Modelled from the spec: the duration parser, on text of the form
    [<digits>ms]. *)
Definition period_sample (v : value) : result value :=
  match v with
  | VStr s =>
      if endswith s "ms" then
        match int_of_str (drop_last 2 s) with
        | Some n => if 0 <=? n then Ok (VTimePeriod n)
                    else Raise (Invalid "time period must be positive")
        | None => Raise (Invalid "expected time period")
        end
      else Raise (Invalid "expected time period")
  | _ => Raise (Invalid "expected time period")
  end.

(** Modelled from the spec: [cv.string], on text. *)
Definition string_sample (v : value) : result value :=
  match v with
  | VStr s => Ok v
  | _ => Raise (Invalid "expected a string")
  end.

(** The structured text of the example, [{format: "%d items", args: [x]}]. *)
Definition items_dict : gmap string value :=
  <[ CONF_FORMAT := VStr "%d items" ]> (<[ CONF_ARGS := VList [VStr "x"] ]> ∅).

(** A structured text with three arguments. *)
Definition three_args_dict : gmap string value :=
  <[ CONF_FORMAT := VStr "%s: %d of %d" ]>
    (<[ CONF_ARGS := VList [VStr "name"; VInt 3; VStr "total"] ]> ∅).

(** The float 180.0. *)
Definition f180_0 : spec_float := S754_finite false 6333186975989760 (-45).

(** Modelled from the spec: [cv.angle], on a number of degrees given
    without a unit. *)
Definition angle_sample (v : value) : result value :=
  match float_of_value_nostr v with
  | Some x => Ok (VFloat x)
  | None => Raise (Invalid "expected an angle")
  end.

(** A run in which a font asset and a color asset are declared. *)
Definition st_declared : state :=
  mk_state (<[ "my_font" := Font ]> (<[ "my_color" := ColorStruct ]> ∅))
           ∅ ∅ ∅.

End samples.

(* ===================================================================== *)
(** ** Facts about binary64 rounding *)
(* ===================================================================== *)

Module float_facts.
Import Py.

Lemma digits2_pos_bounds (m : positive) :
  2 ^ (Zpos (digits2_pos m) - 1) <= Zpos m < 2 ^ Zpos (digits2_pos m).
Proof.
  induction m as [m IH | m IH | ]; cbn [digits2_pos].
  - rewrite Pos2Z.inj_succ. change (Zpos m~1) with (2 * Zpos m + 1).
    replace (Z.succ (Zpos (digits2_pos m)) - 1) with (Z.succ (Zpos (digits2_pos m) - 1)) by lia.
    rewrite 2 Z.pow_succ_r by lia. lia.
  - rewrite Pos2Z.inj_succ. change (Zpos m~0) with (2 * Zpos m).
    replace (Z.succ (Zpos (digits2_pos m)) - 1) with (Z.succ (Zpos (digits2_pos m) - 1)) by lia.
    rewrite 2 Z.pow_succ_r by lia. lia.
  - split; [reflexivity | reflexivity].
Qed.

Lemma shr_1_m (r : shr_record) :
  0 <= shr_m r -> shr_m (shr_1 r) = shr_m r / 2.
Proof.
  destruct r as [m r s]; cbn [shr_m]. intros Hm.
  destruct m as [ | [p | p | ] | p ]; cbn [shr_1 shr_m]; try reflexivity; try lia.
  - change (Zpos p~1) with (2 * Zpos p + 1).
    apply Z.div_unique with (r := 1); lia.
  - change (Zpos p~0) with (2 * Zpos p).
    apply Z.div_unique with (r := 0); lia.
Qed.

Lemma iter_shr_1_m (p : positive) : forall r : shr_record,
  0 <= shr_m r ->
  shr_m (SpecFloat.iter_pos shr_1 p r) = shr_m r / 2 ^ Zpos p.
Proof.
  induction p as [p IH | p IH | ]; intros r Hr; cbn [SpecFloat.iter_pos].
  - assert (H1 : 0 <= shr_m (shr_1 r)).
    { rewrite shr_1_m by assumption. apply Z.div_pos; lia. }
    assert (H2 : 0 <= shr_m (SpecFloat.iter_pos shr_1 p (shr_1 r))).
    { rewrite IH by assumption. apply Z.div_pos; lia. }
    rewrite IH, IH, shr_1_m by assumption.
    rewrite !Z.div_div by lia. f_equal.
    change (Zpos p~1) with (2 * Zpos p + 1).
    replace (2 * Zpos p + 1) with (1 + Zpos p + Zpos p) by lia.
    rewrite !Z.pow_add_r by lia. change (2 ^ 1) with 2. ring.
  - assert (H2 : 0 <= shr_m (SpecFloat.iter_pos shr_1 p r)).
    { rewrite IH by assumption. apply Z.div_pos; lia. }
    rewrite IH, IH by assumption.
    rewrite !Z.div_div by lia. f_equal.
    change (Zpos p~0) with (2 * Zpos p).
    replace (2 * Zpos p) with (Zpos p + Zpos p) by lia.
    rewrite Z.pow_add_r by lia. reflexivity.
  - rewrite shr_1_m by assumption. reflexivity.
Qed.

(** [shr_fexp] truncates the mantissa to the exponent the format asks
    for. *)
Lemma shr_fexp_spec (m e : Z) (l : location) :
  0 <= m ->
  snd (shr_fexp prec emax m e l) = Z.max e (fexp prec emax (Zdigits2 m + e)) /\
  shr_m (fst (shr_fexp prec emax m e l))
  = m / 2 ^ (Z.max e (fexp prec emax (Zdigits2 m + e)) - e).
Proof.
  intros Hm. unfold shr_fexp, shr.
  assert (Hrec : shr_m (shr_record_of_loc m l) = m).
  { destruct l as [ | [ | | ]]; reflexivity. }
  set (f := fexp prec emax (Zdigits2 m + e)).
  destruct (f - e) as [ | k | k ] eqn:Hk; cbn [fst snd].
  - replace (Z.max e f) with e by lia.
    rewrite Z.sub_diag, Z.pow_0_r, Z.div_1_r. auto.
  - replace (Z.max e f) with (e + Zpos k) by lia.
    split; [reflexivity | ].
    rewrite iter_shr_1_m by lia. rewrite Hrec. f_equal. f_equal. lia.
  - replace (Z.max e f) with e by lia.
    rewrite Z.sub_diag, Z.pow_0_r, Z.div_1_r. auto.
Qed.

Lemma round_nearest_even_bounds (m : Z) (l : location) :
  m <= round_nearest_even m l <= m + 1.
Proof.
  destruct l as [ | [ | | ]]; cbn [round_nearest_even]; try lia.
  destruct (Z.even m); lia.
Qed.

Lemma fexp_eq (x : Z) : fexp prec emax x = Z.max (x - 53) (-1074).
Proof. reflexivity. Qed.

Lemma Zdigits2_le (m b : Z) : 0 < m -> m < 2 ^ b -> 0 <= b -> Zdigits2 m <= b.
Proof.
  intros Hm Hlt Hb. destruct m as [ | p | p ]; try lia.
  cbn [Zdigits2]. pose proof (digits2_pos_bounds p) as [Hlo _].
  assert (H : 2 ^ (Zpos (digits2_pos p) - 1) < 2 ^ b) by lia.
  apply Z.pow_lt_mono_r_iff in H; lia.
Qed.

(** Rounding a positive product that does not exceed the integer [K]
    (with [K + 1 <= 2 ^ b]) gives zero or a float below [K + 1]. *)
Lemma binary_round_aux_below (M E K b : Z) :
  0 < M -> 0 <= K -> K + 1 <= 2 ^ b -> 0 <= b <= 52 -> E <= b - 53 ->
  M <= K * 2 ^ (- E) ->
  binary_round_aux prec emax false M E loc_Exact = S754_zero false \/
  exists m3 e3,
    binary_round_aux prec emax false M E loc_Exact = S754_finite false m3 e3 /\
    e3 < 0 /\ Zpos m3 < (K + 1) * 2 ^ (- e3).
Proof.
  intros HM HK HKb Hb HE HMK.
  unfold binary_round_aux.
  pose proof (shr_fexp_spec M E loc_Exact ltac:(lia)) as [He1 Hm1].
  destruct (shr_fexp prec emax M E loc_Exact) as [mrs1 e1] eqn:Hs1.
  cbn [fst snd] in He1, Hm1.
  set (m2 := round_nearest_even (shr_m mrs1) (loc_of_shr_record mrs1)).
  pose proof (round_nearest_even_bounds (shr_m mrs1) (loc_of_shr_record mrs1))
    as Hm2. fold m2 in Hm2.
  rewrite fexp_eq in He1, Hm1.
  (* the first truncation *)
  assert (HpE : 0 < 2 ^ (- E)) by (apply Z.pow_pos_nonneg; lia).
  assert (HdM : Zdigits2 M + E <= b).
  { assert (H : Zdigits2 M <= b - E).
    { apply Zdigits2_le; try lia.
      replace (b - E) with (b + - E) by lia. rewrite Z.pow_add_r by lia. nia. }
    lia. }
  assert (He1b : E <= e1 <= b - 53) by lia.
  assert (Hp1 : 0 < 2 ^ (e1 - E)) by (apply Z.pow_pos_nonneg; lia).
  assert (Hpe1 : 2 <= 2 ^ (- e1)).
  { change 2 with (2 ^ 1) at 1. apply Z.pow_le_mono_r; lia. }
  assert (Hsplit : 2 ^ (- E) = 2 ^ (- e1) * 2 ^ (e1 - E)).
  { rewrite <- Z.pow_add_r by lia. f_equal. lia. }
  assert (Hm1lo : 0 <= shr_m mrs1).
  { rewrite Hm1. replace (Z.max E (Z.max (Zdigits2 M + E - 53) (-1074)) - E)
      with (e1 - E) by lia. apply Z.div_pos; lia. }
  assert (Hm1hi : shr_m mrs1 <= K * 2 ^ (- e1)).
  { rewrite Hm1. replace (Z.max E (Z.max (Zdigits2 M + E - 53) (-1074)) - E)
      with (e1 - E) by lia.
    apply Z.div_le_upper_bound; [lia | ]. rewrite Hsplit in HMK. nia. }
  assert (Hm2hi : m2 < (K + 1) * 2 ^ (- e1)) by nia.
  (* the second truncation *)
  pose proof (shr_fexp_spec m2 e1 loc_Exact ltac:(lia)) as [He3 Hm3].
  destruct (shr_fexp prec emax m2 e1 loc_Exact) as [mrs3 e3] eqn:Hs3.
  cbn [fst snd] in He3, Hm3. rewrite fexp_eq in He3, Hm3.
  destruct (Z.eq_dec m2 0) as [Hz | Hnz].
  { rewrite Hz in Hm3. rewrite Z.div_0_l in Hm3.
    - rewrite Hm3. now left.
    - apply Z.pow_nonzero; lia. }
  assert (Hdm2 : Zdigits2 m2 + e1 <= b).
  { assert (H : Zdigits2 m2 <= b - e1).
    { apply Zdigits2_le; try lia.
      replace (b - e1) with (b + - e1) by lia. rewrite Z.pow_add_r by lia. nia. }
    lia. }
  assert (He3b : e1 <= e3 <= b - 53) by lia.
  assert (Hp3 : 0 < 2 ^ (e3 - e1)) by (apply Z.pow_pos_nonneg; lia).
  assert (Hpe3 : 0 < 2 ^ (- e3)) by (apply Z.pow_pos_nonneg; lia).
  assert (Hsplit3 : 2 ^ (- e1) = 2 ^ (- e3) * 2 ^ (e3 - e1)).
  { rewrite <- Z.pow_add_r by lia. f_equal. lia. }
  replace (Z.max e1 (Z.max (Zdigits2 m2 + e1 - 53) (-1074)) - e1)
    with (e3 - e1) in Hm3 by lia.
  assert (Hm3lo : 0 <= shr_m mrs3) by (rewrite Hm3; apply Z.div_pos; lia).
  assert (Hm3hi : shr_m mrs3 < (K + 1) * 2 ^ (- e3)).
  { rewrite Hm3. apply Z.div_lt_upper_bound; [lia | ].
    rewrite Hsplit3 in Hm2hi. nia. }
  destruct (shr_m mrs3) as [ | m3 | m3 ] eqn:Hm3e; [now left | | lia].
  right. exists m3, e3.
  replace (e3 <=? emax - prec) with true.
  - repeat split; [lia | lia].
  - symmetry. apply Z.leb_le. unfold emax, prec. lia.
Qed.


(** A well-formed positive float below the float [cU * 2 ^ eU], which
    denotes the integer [Kv], has [m <= Kv * 2 ^ (- e)]. *)
Lemma le_bound_cases (m cU : positive) (e eU Kv : Z) :
  Zpos cU = Kv * 2 ^ (- eU) -> 2 ^ 52 <= Zpos cU -> eU <= 0 ->
  canonical_mantissa prec emax m e = true ->
  SFleb (S754_finite false m e) (S754_finite false cU eU) = true ->
  e <= eU /\ Zpos m <= Kv * 2 ^ (- e).
Proof.
  intros HcU Hnorm HeU Hc H1. apply Z.eqb_eq in Hc. rewrite fexp_eq in Hc.
  pose proof (digits2_pos_bounds m) as [_ Hhi].
  unfold SFleb, SFcompare in H1.
  destruct (e ?= eU) eqn:Hcmp.
  - apply Z.compare_eq in Hcmp. subst e. split; [lia | ].
    rewrite <- HcU. apply Pos2Z.pos_le_pos.
    pose proof (Pos.compare_eq m cU) as Heq.
    pose proof (proj1 (Pos.compare_lt_iff m cU)) as Hlt.
    unfold Pos.compare in Heq, Hlt.
    destruct (Pos.compare_cont Eq m cU); try discriminate.
    + rewrite (Heq eq_refl). apply Pos.le_refl.
    + apply Pos.lt_le_incl, Hlt. reflexivity.
  - rewrite Z.compare_lt_iff in Hcmp. split; [lia | ].
    assert (Hd : Zpos (digits2_pos m) <= 53) by lia.
    assert (H : 2 ^ Zpos (digits2_pos m) <= 2 ^ 53)
      by (apply Z.pow_le_mono_r; lia).
    assert (Hsplit : 2 ^ (- e) = 2 ^ (- eU) * 2 ^ (eU - e)).
    { rewrite <- Z.pow_add_r by lia. f_equal. lia. }
    assert (H2 : 2 ^ 1 <= 2 ^ (eU - e)) by (apply Z.pow_le_mono_r; lia).
    change (2 ^ 1) with 2 in H2. change (2 ^ 53) with (2 * 2 ^ 52) in H.
    rewrite Hsplit. nia.
  - discriminate.
Qed.

(** A well-formed float between 0.0 and the bound is a zero or a
    positive [m * 2 ^ e] with [m <= Kv * 2 ^ (- e)]. *)
Lemma range_cases (p : spec_float) (cU : positive) (eU Kv : Z) :
  Zpos cU = Kv * 2 ^ (- eU) -> 2 ^ 52 <= Zpos cU -> eU <= 0 ->
  valid_float p = true -> fle f0_0 p = true ->
  fle p (S754_finite false cU eU) = true ->
  (exists s, p = S754_zero s) \/
  (exists m e, p = S754_finite false m e /\ e <= eU /\
               Zpos m <= Kv * 2 ^ (- e)).
Proof.
  intros HcU Hnorm HeU Hv H0 H1. destruct p as [s | s | | s m e].
  - left. now exists s.
  - destruct s; discriminate.
  - discriminate.
  - right. exists m, e.
    destruct s; [discriminate | ].
    split; [reflexivity | ].
    unfold valid_float, valid_binary, bounded in Hv.
    apply andb_prop in Hv as [Hc _].
    now apply (le_bound_cases m cU e eU Kv).
Qed.

(** [int(p * K)] for [p] between 0.0 and the integer [Kv], and an integer
    constant [K = c * 2 ^ (- j)]: the product is rounded once and never
    past [Kv * K], so the truncation lies between 0 and [Kv * K]. *)
Lemma int_of_scaled_range
    (p : spec_float) (cU : positive) (eU Kv K b : Z) (c : positive) (j : Z) :
  float_of_Z K = S754_finite false c (- j) -> Zpos c = K * 2 ^ j -> 0 <= j ->
  Zpos cU = Kv * 2 ^ (- eU) -> 2 ^ 52 <= Zpos cU -> eU <= 0 ->
  Kv * K + 1 <= 2 ^ b -> 0 <= b <= 52 -> eU - j <= b - 53 ->
  valid_float p = true -> fle f0_0 p = true ->
  fle p (S754_finite false cU eU) = true ->
  exists n, int_of_float (fmul p (float_of_Z K)) = Ok n /\ 0 <= n <= Kv * K /\
            fle f0_0 (fmul p (float_of_Z K)) = true.
Proof.
  intros HK Hc Hj HcU Hnorm HeU HKb Hb HEb Hv H0 H1.
  assert (Hp : 0 < 2 ^ j) by (apply Z.pow_pos_nonneg; lia).
  assert (HKpos : 0 < K) by nia.
  assert (HpU : 0 < 2 ^ (- eU)) by (apply Z.pow_pos_nonneg; lia).
  assert (HKvpos : 0 < Kv) by nia.
  destruct (range_cases p cU eU Kv HcU Hnorm HeU Hv H0 H1)
    as [[s ->] | (m & e & -> & He & Hm)].
  - exists 0. rewrite HK. cbn. repeat split; [nia | nia].
  - rewrite HK. unfold fmul. cbn [SFmul xorb].
    assert (HpE : 2 ^ (- (e + - j)) = 2 ^ (- e) * 2 ^ j).
    { rewrite <- Z.pow_add_r by lia. f_equal. lia. }
    assert (Hpe : 0 < 2 ^ (- e)) by (apply Z.pow_pos_nonneg; lia).
    assert (HM : Zpos (m * c) <= Kv * K * 2 ^ (- (e + - j))).
    { rewrite HpE, Pos2Z.inj_mul, Hc. nia. }
    assert (HKK : 0 <= Kv * K) by nia.
    destruct (binary_round_aux_below (Zpos (m * c)) (e + - j) (Kv * K) b
                ltac:(lia) HKK HKb Hb ltac:(lia) HM)
      as [Hz | (m3 & e3 & Hr & He3 & Hm3)].
    + rewrite Hz. exists 0. cbn. repeat split; nia.
    + rewrite Hr. cbn [int_of_float cond_Zopp].
      eexists; split; [reflexivity | ].
      rewrite Z.shiftl_div_pow2 by lia.
      assert (Hp3 : 0 < 2 ^ (- e3)) by (apply Z.pow_pos_nonneg; lia).
      split; [ | reflexivity]. split.
      * apply Z.div_pos; lia.
      * assert (H : Zpos m3 / 2 ^ (- e3) < Kv * K + 1)
          by (apply Z.div_lt_upper_bound; nia).
        lia.
Qed.

(** [int(x)] of a finite float that is not negative is the floor of the
    number the float denotes. *)
Lemma int_of_float_floor (x : spec_float) (n : Z) :
  int_of_float x = Ok n -> fle f0_0 x = true ->
  n = Qfloor (Q_of_float x).
Proof.
  intros Hn H0. destruct x as [s | s | | s m e]; try discriminate.
  - injection Hn as <-. reflexivity.
  - destruct s; [discriminate | ].
    injection Hn as <-. cbn [cond_Zopp Q_of_float].
    destruct (0 <=? e) eqn:He.
    + apply Z.leb_le in He. rewrite Z.shiftl_mul_pow2 by lia.
      symmetry. apply Qfloor_Z.
    + apply Z.leb_gt in He. rewrite Z.shiftl_div_pow2 by lia.
      cbn [Qfloor]. rewrite Z2Pos.id by (apply Z.pow_pos_nonneg; lia).
      reflexivity.
Qed.

(** A float that is at least 0.1 is at least 0.0. *)
Lemma fle_0_1_nonneg (x : spec_float) : fle f0_1 x = true -> fle f0_0 x = true.
Proof.
  destruct x as [s | s | | s m e]; try discriminate.
  - destruct s; [discriminate | reflexivity].
  - destruct s; [discriminate | reflexivity].
Qed.

End float_facts.

(* ===================================================================== *)
(** ** What the validators guarantee *)
(* ===================================================================== *)

Module lv_validation_spec.
Import Py helpers defines lv_validation samples float_facts.
Local Open Scope py_scope.

(** *** Size *)

(** Text that ends in a given suffix. *)

Lemma app_cons (c : ascii) (p q : string) :
  (String c p ++ q)%string = String c (p ++ q).
Proof. reflexivity. Qed.

Lemma app_nil (q : string) : (EmptyString ++ q)%string = q.
Proof. reflexivity. Qed.

Lemma substring_all (s : string) : substring 0 (String.length s) s = s.
Proof. induction s as [ | c s IH]; cbn; [reflexivity | now rewrite IH]. Qed.

Lemma substring_split (s : string) : forall i : nat,
  (i <= String.length s)%nat ->
  s = (substring 0 i s ++ substring i (String.length s - i) s)%string.
Proof.
  induction s as [ | c s IH]; intros i Hi.
  - destruct i; reflexivity.
  - destruct i as [ | i].
    + cbn [substring String.length Nat.sub]. rewrite app_nil.
      now rewrite substring_all.
    + cbn [String.length] in Hi. cbn [substring String.length Nat.sub].
      rewrite app_cons. f_equal. apply IH. lia.
Qed.

Lemma endswith_inv (s suffix : string) :
  endswith s suffix = true -> exists p, s = (p ++ suffix)%string.
Proof.
  unfold endswith. intros H. apply andb_prop in H as [Hlen Heq].
  apply Nat.leb_le in Hlen. apply String.eqb_eq in Heq.
  exists (substring 0 (String.length s - String.length suffix) s).
  rewrite <- Heq at 2.
  rewrite (substring_split s (String.length s - String.length suffix)) at 1
    by lia.
  do 2 f_equal. lia.
Qed.

Lemma map_string_app (f : ascii -> ascii) (p q : string) :
  map_string f (p ++ q) = (map_string f p ++ map_string f q)%string.
Proof.
  induction p as [ | c p IH]; [reflexivity | ].
  rewrite app_cons. cbn [map_string]. rewrite app_cons. now rewrite IH.
Qed.

Lemma app_last_char (p q : string) (a b : ascii) :
  (p ++ String a EmptyString)%string = (q ++ String b EmptyString)%string ->
  a = b.
Proof.
  revert q. induction p as [ | c p IH]; intros q H.
  - destruct q as [ | d q]; rewrite ?app_nil, ?app_cons in H.
    + now injection H.
    + injection H as _ H. destruct q; discriminate H.
  - destruct q as [ | d q]; rewrite ?app_nil, ?app_cons in H.
    + injection H as _ H. destruct p; discriminate H.
    + injection H as _ H. now apply (IH q).
Qed.

Lemma app_assoc_string (p q r : string) :
  ((p ++ q) ++ r)%string = (p ++ (q ++ r))%string.
Proof.
  induction p as [ | c p IH]; [reflexivity | ].
  rewrite !app_cons. now rewrite IH.
Qed.

(** Text that ends in a percent sign does not end in "px", in any case. *)
Lemma percent_text_not_px (s : string) :
  endswith s "%" = true -> endswith (lower s) "px" = false.
Proof.
  intros Hpc. destruct (endswith (lower s) "px") eqn:Hpx; [ | reflexivity].
  destruct (endswith_inv _ _ Hpc) as [p ->].
  destruct (endswith_inv _ _ Hpx) as [q Hq].
  unfold lower in Hq. rewrite map_string_app in Hq.
  change (map_string lower_ascii "%") with (String "%"%char EmptyString) in Hq.
  change "px" with ("p" ++ String "x"%char EmptyString)%string in Hq.
  rewrite <- app_assoc_string in Hq.
  apply app_last_char in Hq. discriminate Hq.
Qed.

Lemma percentage_range (v w : value) :
  cv.percentage v = Ok w ->
  exists p, w = VFloat p /\ fle f0_0 p = true /\ fle p f1_0 = true.
Proof.
  unfold cv.percentage.
  match goal with |- context [match ?parsed with Some _ => _ | None => _ end] =>
    destruct parsed as [x | ] end; [ | discriminate].
  destruct (fle f0_0 x) eqn:H0; [ | discriminate].
  destruct (fle x f1_0) eqn:H1; [ | discriminate].
  cbn [andb]. intros H. injection H as <-. now exists x.
Qed.

Lemma percentage_not_sentinel (v w : value) :
  cv.percentage v = Ok w -> is_SCHEMA_EXTRACT v = false.
Proof. destruct v; try reflexivity. discriminate. Qed.

(** [int(p * 100)] for a percentage [p]. *)
Lemma int_times_100_range (p : spec_float) :
  valid_float p = true -> fle f0_0 p = true -> fle p f1_0 = true ->
  exists n, int_times (VFloat p) 100 = Ok n /\ 0 <= n <= 100 /\
            n = Qfloor (Q_of_float (fmul p (float_of_Z 100))).
Proof.
  intros Hv H0 H1.
  destruct (int_of_scaled_range p 4503599627370496 (-52) 1 100 7
              7036874417766400 46) as (n & Hn & Hr & Hpos);
    try assumption; try (vm_compute; reflexivity); try (vm_compute; discriminate).
  - split; vm_compute; discriminate.
  - exists n. cbn [int_times]. repeat split; try lia; try assumption.
    now apply int_of_float_floor.
Qed.





Lemma lv_pct_shape (p r : value) :
  lv_pct p = Ok r -> exists n, r = VStr ("lv_pct(" ++ str_int n ++ ")").
Proof.
  unfold lv_pct. destruct (int_times p 100) as [n | e]; cbn [Py.bind];
    intros H; [ | discriminate H].
  injection H as <-. now exists n.
Qed.

Lemma size_validator_str_shapes (s : string) (r : value) :
  size_validator (VStr s) = Ok r ->
  (r = VStr "LV_SIZE_CONTENT" /\ upper s = "SIZE_CONTENT") \/
  (exists n, r = VInt n /\ endswith (lower s) "px" = true) \/
  (exists n, r = VStr ("lv_pct(" ++ str_int n ++ ")") /\ endswith s "%" = true).
Proof.
  unfold size_validator. cbn [is_SCHEMA_EXTRACT as_str].
  destruct (endswith (lower s) "px") eqn:Hpx.
  - cbn [cv.int_]. destruct (int_of_str (drop_last 2 s)) as [n | ];
      cbn [Py.bind as_str isinstance_int cv.int_]; intros H; [ | discriminate H].
    injection H as <-. right. left. now exists n.
  - cbn [Py.bind as_str]. destruct (endswith s "%") eqn:Hpc; cbn [negb].
    + destruct (cv.percentage (VStr s)) as [p | e]; cbn [Py.bind];
        intros H; [ | discriminate H].
      right. right. destruct (lv_pct_shape p r H) as [n ->]. now exists n.
    + destruct (String.eqb (upper s) "SIZE_CONTENT") eqn:Hup;
        intros H; [ | discriminate H].
      injection H as <-. left. split; [reflexivity | ].
      now apply String.eqb_eq.
Qed.






(** *** Opacity and zoom: scaling a float and truncating *)

(** [int(p * 255)] for a percentage [p]. *)
Lemma int_times_255_range (p : spec_float) :
  valid_float p = true -> fle f0_0 p = true -> fle p f1_0 = true ->
  exists n, int_times (VFloat p) 255 = Ok n /\ 0 <= n <= 255 /\
            n = Qfloor (Q_of_float (fmul p (float_of_Z 255))).
Proof.
  intros Hv H0 H1.
  destruct (int_of_scaled_range p 4503599627370496 (-52) 1 255 8
              8972014882652160 45) as (n & Hn & Hr & Hpos);
    try assumption; try (vm_compute; reflexivity); try (vm_compute; discriminate).
  - split; vm_compute; discriminate.
  - exists n. cbn [int_times]. repeat split; try lia; try assumption.
    now apply int_of_float_floor.
Qed.

(** C2. For every percentage [p] the opacity validator accepts, that is
    a float with 0.0 <= p <= 1.0, the result is [int(p * 255)]: the
    binary64 product truncated, which is its floor and not its rounding,
    and it lies between 0 and 255. *)
Theorem opacity_percentage_floor (v : value) (p : spec_float) (st : state) :
  cv.percentage v = Ok (VFloat p) -> valid_float p = true ->
  exists n, opacity_validator v st = (Ok (VInt n), st) /\
            int_of_float (fmul p (float_of_Z 255)) = Ok n /\
            n = Qfloor (Q_of_float (fmul p (float_of_Z 255))) /\
            0 <= n <= 255.
Proof.
  intros Hp Hv.
  destruct (percentage_range v _ Hp) as (p' & Heq & H0 & H1).
  injection Heq as <-.
  destruct (int_times_255_range p Hv H0 H1) as (n & Hn & Hr & Hfl).
  exists n. repeat split; try lia; try assumption.
  unfold opacity_validator.
  rewrite (percentage_not_sentinel v _ Hp).
  unfold bindM, cv.Any, lift. rewrite Hp. cbn [isinstance_float].
  rewrite Hn. reflexivity.
Qed.


Lemma opacity_percentage_floor_witness :
  (cv.percentage (VStr "50%") = Ok (VFloat f0_5) /\ valid_float f0_5 = true) /\
  exists n, opacity_validator (VStr "50%") (mk_state ∅ ∅ ∅ ∅)
            = (Ok (VInt n), mk_state ∅ ∅ ∅ ∅) /\
            int_of_float (fmul f0_5 (float_of_Z 255)) = Ok n /\
            n = Qfloor (Q_of_float (fmul f0_5 (float_of_Z 255))) /\
            0 <= n <= 255.
Proof.
  assert (H1 : cv.percentage (VStr "50%") = Ok (VFloat f0_5))
    by (vm_compute; reflexivity).
  assert (H2 : valid_float f0_5 = true) by (vm_compute; reflexivity).
  split; [split; assumption | ].
  exact (opacity_percentage_floor (VStr "50%") f0_5 (mk_state ∅ ∅ ∅ ∅) H1 H2).
Defined.

(** The conversion truncates: 50% is 127, where rounding 127.5 would
    give 128. *)
Lemma opacity_half_truncates :
  opacity_validator (VStr "50%") st0 = (Ok (VInt 127), st0).
Proof. vm_compute. reflexivity. Qed.

(** The product that is truncated is the binary64 product, rounded once:
    the float nearest to 1/255 lies below 1/255, its product with 255 is
    the float 1.0 and the opacity is 1, while the exact rational product
    is still below 1. *)
Lemma scaled_product_is_rounded :
  int_times (VFloat (fdiv (float_of_Z 1) (float_of_Z 255))) 255 = Ok 1 /\
  Qfloor (Qmult (Q_of_float (fdiv (float_of_Z 1) (float_of_Z 255)))
                (inject_Z 255)) = 0.
Proof. split; vm_compute; reflexivity. Qed.

(** [int(v * 256)] for a zoom factor [v]. *)
Lemma int_times_256_range (v : spec_float) :
  valid_float v = true -> fle f0_0 v = true -> fle v f10_0 = true ->
  exists n, int_times (VFloat v) 256 = Ok n /\ 0 <= n <= 2560 /\
            n = Qfloor (Q_of_float (fmul v (float_of_Z 256))).
Proof.
  intros Hv H0 H1.
  destruct (int_of_scaled_range v 5629499534213120 (-49) 10 256 12
              4503599627370496 44) as (n & Hn & Hr & Hpos);
    try assumption; try (vm_compute; reflexivity); try (vm_compute; discriminate).
  - split; vm_compute; discriminate.
  - exists n. cbn [int_times]. repeat split; try lia; try assumption.
    now apply int_of_float_floor.
Qed.


(** C8. For every float [v] with 0.1 <= v <= 10.0, zoom returns
    [int(v * 256)], the truncated binary64 product; 1.0, 2.0 and 10.0
    give 256, 512 and 2560; a float outside the range, such as 0.05,
    fails with the range error. *)
Theorem zoom_spec :
  (forall v, valid_float v = true -> fle f0_1 v = true -> fle v f10_0 = true ->
     exists n, zoom (VFloat v) = Ok (VInt n) /\
               int_of_float (fmul v (float_of_Z 256)) = Ok n /\
               n = Qfloor (Q_of_float (fmul v (float_of_Z 256))) /\
               0 <= n <= 2560) /\
  zoom (VFloat f1_0) = Ok (VInt 256) /\
  zoom (VFloat f2_0) = Ok (VInt 512) /\
  zoom (VFloat f10_0) = Ok (VInt 2560) /\
  zoom (VFloat f0_05) = Raise (Invalid "value out of range") /\
  (forall v, fle f0_1 v && fle v f10_0 = false ->
     zoom (VFloat v) = Raise (Invalid "value out of range")).
Proof.
  split.
  { intros v Hv H0 H1.
    destruct (int_times_256_range v Hv (fle_0_1_nonneg v H0) H1)
      as (n & Hn & Hr & Hfl).
    exists n. repeat split; try lia; try assumption.
    unfold zoom, cv.float_range. cbn [float_of_value float_of_value_nostr].
    rewrite H0, H1. cbn [andb Py.bind]. rewrite Hn. reflexivity. }
  split; [vm_compute; reflexivity | ].
  split; [vm_compute; reflexivity | ].
  split; [vm_compute; reflexivity | ].
  split; [vm_compute; reflexivity | ].
  intros v H. unfold zoom, cv.float_range.
  cbn [float_of_value float_of_value_nostr]. rewrite H. reflexivity.
Qed.

Lemma zoom_spec_witness :
  (valid_float f2_0 = true /\ fle f0_1 f2_0 = true /\ fle f2_0 f10_0 = true) /\
  exists n, zoom (VFloat f2_0) = Ok (VInt n) /\
            int_of_float (fmul f2_0 (float_of_Z 256)) = Ok n /\
            n = Qfloor (Q_of_float (fmul f2_0 (float_of_Z 256))) /\
            0 <= n <= 2560.
Proof.
  assert (H1 : valid_float f2_0 = true) by (vm_compute; reflexivity).
  assert (H2 : fle f0_1 f2_0 = true) by (vm_compute; reflexivity).
  assert (H3 : fle f2_0 f10_0 = true) by (vm_compute; reflexivity).
  split; [repeat split; assumption | ].
  exact (proj1 zoom_spec f2_0 H1 H2 H3).
Defined.

(** *** Radius *)

Lemma LValidator_call_size (v : value) (st : state) :
  LValidator_call size v st = (size_validator v, st).
Proof. destruct v; reflexivity. Qed.

Lemma int__shape (v w : value) :
  cv.int_ v = Ok w -> isinstance_float w = false.
Proof.
  destruct v; cbn [cv.int_]; intros H; try discriminate H;
    try (injection H as <-; reflexivity).
  - destruct (int_of_float x) as [n | e]; [ | discriminate H].
    destruct (SFeqb (float_of_Z n) x); [ | discriminate H].
    injection H as <-. reflexivity.
  - destruct (int_of_str s) as [n | ]; [ | discriminate H].
    injection H as <-. reflexivity.
Qed.

Lemma lv_pct_not_float (p w : value) :
  lv_pct p = Ok w -> isinstance_float w = false.
Proof. intros H. destruct (lv_pct_shape p w H) as [n ->]. reflexivity. Qed.

Lemma pct_branch_not_float (v w : value) :
  (let! p := cv.percentage v in lv_pct p) = Ok w -> isinstance_float w = false.
Proof.
  destruct (cv.percentage v) as [p | e]; cbn [Py.bind]; [ | discriminate].
  apply lv_pct_not_float.
Qed.

(** The size validator never returns a float. *)
Lemma size_validator_not_float (v w : value) :
  size_validator v = Ok w -> isinstance_float w = false.
Proof.
  unfold size_validator. destruct (is_SCHEMA_EXTRACT v).
  { intros H. injection H as <-. reflexivity. }
  match goal with |- Py.bind ?first _ = _ -> _ =>
    destruct first as [value | e] eqn:Hfirst end; cbn [Py.bind];
    [ | discriminate].
  destruct (as_str value) as [s | ].
  - destruct (negb (endswith s "%")).
    + destruct (String.eqb (upper s) "SIZE_CONTENT"); intros H;
        [ | discriminate H].
      injection H as <-. reflexivity.
    + apply pct_branch_not_float.
  - destruct (isinstance_int value).
    + apply int__shape.
    + apply pct_branch_not_float.
Qed.

Lemma radius_of_size (v w : value) (st : state) :
  is_SCHEMA_EXTRACT v = false -> size_validator v = Ok w ->
  radius_validator v st = (Ok w, st).
Proof.
  intros Hs Hw. unfold radius_validator. rewrite Hs.
  unfold bindM. cbn [cv.Any]. rewrite LValidator_call_size, Hw.
  rewrite (size_validator_not_float v w Hw). reflexivity.
Qed.


(** C3, as the code has it. An integer [r] is returned unchanged. What
    the size validator accepts is returned as the size validator returns
    it, never a float: a percentage written with a percent sign, or
    given as a float, comes back as lv_pct(int(p * 100)). Only a value
    the size validator rejects and [cv.percentage] accepts (a number
    written as text without a percent sign) is scaled to
    [int(p * 255)], between 0 and 255, as the opacity validator does;
    the constant "circle" gives its token. *)
Theorem radius_validator_shapes :
  (forall r st, radius_validator (VInt r) st = (Ok (VInt r), st)) /\
  (forall v w st, is_SCHEMA_EXTRACT v = false -> size_validator v = Ok w ->
     radius_validator v st = (Ok w, st) /\ isinstance_float w = false) /\
  (forall st, radius_validator (VStr "50%") st = (Ok (VStr "lv_pct(50)"), st)) /\
  (forall st, radius_validator (VFloat f0_5) st = (Ok (VStr "lv_pct(50)"), st)) /\
  (forall v e p st, size_validator v = Raise e ->
     cv.percentage v = Ok (VFloat p) -> valid_float p = true ->
     exists n, radius_validator v st = (Ok (VInt n), st) /\
               int_of_float (fmul p (float_of_Z 255)) = Ok n /\
               0 <= n <= 255) /\
  (forall st, radius_validator (VStr "0.5") st = (Ok (VInt 127), st)) /\
  (forall st, radius_validator (VStr "circle") st
              = (Ok (VStr "LV_RADIUS_CIRCLE"), st)).
Proof.
  split; [intros r st; reflexivity | ].
  split.
  { intros v w st Hs Hw. split.
    - now apply radius_of_size.
    - now apply (size_validator_not_float v). }
  split; [intros st; apply radius_of_size; vm_compute; reflexivity | ].
  split; [intros st; apply radius_of_size; vm_compute; reflexivity | ].
  split.
  { intros v e p st Hsz Hp Hv.
    destruct (percentage_range v _ Hp) as (p' & Heq & H0 & H1).
    injection Heq as <-.
    destruct (int_times_255_range p Hv H0 H1) as (n & Hn & Hr & Hfl).
    exists n. repeat split; try lia; try assumption.
    unfold radius_validator. rewrite (percentage_not_sentinel v _ Hp).
    unfold bindM. cbn [cv.Any]. rewrite LValidator_call_size, Hsz.
    unfold lift at 1. rewrite Hp. cbn [isinstance_float].
    unfold lift. rewrite Hn. reflexivity. }
  split.
  { intros st. unfold radius_validator. cbn [is_SCHEMA_EXTRACT].
    unfold bindM. cbn [cv.Any]. rewrite LValidator_call_size.
    replace (size_validator (VStr "0.5")) with (@Raise value size_error)
      by (vm_compute; reflexivity).
    unfold lift.
    replace (cv.percentage (VStr "0.5")) with (Ok (VFloat f0_5))
      by (vm_compute; reflexivity).
    cbn [isinstance_float].
    replace (int_times (VFloat f0_5) 255) with (@Ok Z 127)
      by (vm_compute; reflexivity).
    reflexivity. }
  intros st. unfold radius_validator. cbn [is_SCHEMA_EXTRACT].
  unfold bindM. cbn [cv.Any]. rewrite LValidator_call_size.
  replace (size_validator (VStr "circle")) with (@Raise value size_error)
    by (vm_compute; reflexivity).
  unfold lift.
  replace (cv.percentage (VStr "circle"))
    with (@Raise value (Invalid "invalid number")) by (vm_compute; reflexivity).
  vm_compute. reflexivity.
Qed.

Lemma radius_validator_shapes_witness :
  (size_validator (VStr "0.5") = Raise size_error /\
   cv.percentage (VStr "0.5") = Ok (VFloat f0_5) /\ valid_float f0_5 = true) /\
  exists n, radius_validator (VStr "0.5") st0 = (Ok (VInt n), st0) /\
            int_of_float (fmul f0_5 (float_of_Z 255)) = Ok n /\
            0 <= n <= 255.
Proof.
  assert (H1 : size_validator (VStr "0.5") = Raise size_error)
    by (vm_compute; reflexivity).
  assert (H2 : cv.percentage (VStr "0.5") = Ok (VFloat f0_5))
    by (vm_compute; reflexivity).
  assert (H3 : valid_float f0_5 = true) by (vm_compute; reflexivity).
  split; [repeat split; assumption | ].
  exact (proj1 (proj2 (proj2 (proj2 (proj2 radius_validator_shapes))))
           (VStr "0.5") size_error f0_5 st0 H1 H2 H3).
Defined.

(** C3 as stated fails: the percentage "50%" is accepted by
    [cv.percentage] as 0.5, whose scaling [int(0.5 * 255)] is 127, but
    the radius validator returns the text lv_pct(50). *)
Lemma radius_percent_not_scaled :
  cv.percentage (VStr "50%") = Ok (VFloat f0_5) /\
  int_times (VFloat f0_5) 255 = Ok 127 /\
  radius_validator (VStr "50%") st0 = (Ok (VStr "lv_pct(50)"), st0) /\
  fst (radius_validator (VStr "50%") st0) <> Ok (VInt 127).
Proof.
  split; [vm_compute; reflexivity | ].
  split; [vm_compute; reflexivity | ].
  split; [vm_compute; reflexivity | ].
  vm_compute. discriminate.
Qed.

(** *** Describe mode *)



Section Collaborators.

Variable LV_FONTS : list string.
Variable cv_requires_component : string -> value -> result value.
Variable positive_time_period_milliseconds : value -> result value.
Variable cpp_string_escape : value -> result string.
Variable returning_lambda : value -> result value.
Variable validate_id_name : value -> result value.
Variable cv_string : value -> result value.
Variable str_other : value -> string.

Local Notation py_str := (py_str str_other).
Local Notation LvFont_validator :=
  (LvFont_validator LV_FONTS cv_requires_component str_other).
Local Notation lv_font := (lv_font LV_FONTS cv_requires_component str_other).
Local Notation is_lv_font := (is_lv_font LV_FONTS).
Local Notation color_retmapper := (color_retmapper returning_lambda).
Local Notation lv_color := (lv_color returning_lambda).
Local Notation lvms_validator_ := (lvms_validator_ positive_time_period_milliseconds).
Local Notation lv_milliseconds := (lv_milliseconds positive_time_period_milliseconds).
Local Notation TextValidator_call := (TextValidator_call cv_string str_other).
Local Notation TextValidator_process :=
  (TextValidator_process cpp_string_escape cv_string str_other).

(** C4, as the code has it. Every validator that tests for the
    documentation sentinel (opacity, color, pixels-or-percent, size,
    radius, identifier name, font), called directly or through its
    [LValidator] object, returns its description of the accepted shapes
    without raising and leaves the state, with its three registries, as
    it was, whatever the state is. *)
Theorem describe_mode_frame :
  describes opacity_validator (VList [VStr "TRANSP"; VStr "COVER"]) /\
  describes (LValidator_call opacity) (VList [VStr "TRANSP"; VStr "COVER"]) /\
  describes color (VList [VStr "hex color value"; VStr "color ID"]) /\
  describes (LValidator_call lv_color)
            (VList [VStr "hex color value"; VStr "color ID"]) /\
  pixels_or_percent_validator VSchemaExtract
    = Ok (VList [VStr "pixels"; VStr "..%"]) /\
  describes (LValidator_call pixels_or_percent)
            (VList [VStr "pixels"; VStr "..%"]) /\
  size_validator VSchemaExtract
    = Ok (VList [VStr "size_content"; VStr "pixels"; VStr "..%"]) /\
  describes (LValidator_call size)
            (VList [VStr "size_content"; VStr "pixels"; VStr "..%"]) /\
  describes radius_validator (VList [VStr "CIRCLE"]) /\
  describes (LValidator_call radius) (VList [VStr "CIRCLE"]) /\
  id_name validate_id_name VSchemaExtract = Ok (VStr "id") /\
  describes LvFont_validator (VList (map VStr LV_FONTS)) /\
  describes (LValidator_call lv_font) (VList (map VStr LV_FONTS)).
Proof.
  unfold describes. repeat split; intros; reflexivity.
Qed.

(** *** Fonts *)

Lemma use_id_state (t : py_type) (v : value) (st : state) :
  snd (cv.use_id t v st) = st.
Proof.
  unfold cv.use_id. destruct v; try reflexivity.
  - destruct (declared st !! s) as [t' | ]; [ | reflexivity].
    destruct (bool_decide (t' = t)); reflexivity.
  - destruct (declared st !! name) as [t' | ]; [ | reflexivity].
    destruct (bool_decide (t' = t)); reflexivity.
Qed.

Lemma builtin_font_step (s : string) (st : state) :
  lower s ∈ LV_FONTS ->
  LvFont_validator (VStr s) st
  = (Ok (VStr (lower s)),
     mk_state (declared st) ({[ lower s ]} ∪ lv_fonts_used st)
              (esphome_fonts_used st) (lvgl_components_required st)).
Proof.
  intros Hin. unfold lv_validation.LvFont_validator.
  cbn [is_SCHEMA_EXTRACT]. unfold lv_validation.is_lv_font. cbn [as_str].
  rewrite bool_decide_eq_true_2 by assumption.
  unfold lv_builtin_font, bindM, lift, cv.one_of_lower.
  rewrite bool_decide_eq_true_2 by assumption. reflexivity.
Qed.

(** C5. A built-in font name, in any case, is recorded in
    [lv_fonts_used] by its lower-case name; validating it a second time
    leaves the registry as the first validation left it, so the set
    holds the name once (it grows by one element when the name is new),
    and [esphome_fonts_used] is untouched. A value that is not a built-in
    font and whose identifier lookup fails raises the lookup's error and
    leaves the whole state, both font registries included, unchanged. *)
Theorem font_registry :
  (forall s st, lower s ∈ LV_FONTS ->
     exists st1 st2,
       LvFont_validator (VStr s) st = (Ok (VStr (lower s)), st1) /\
       LvFont_validator (VStr s) st1 = (Ok (VStr (lower s)), st2) /\
       lv_fonts_used st1 = {[ lower s ]} ∪ lv_fonts_used st /\
       st2 = st1 /\
       esphome_fonts_used st2 = esphome_fonts_used st /\
       (lower s ∉ lv_fonts_used st ->
        base.size (lv_fonts_used st2) = S (base.size (lv_fonts_used st)))) /\
  (forall v st e, is_SCHEMA_EXTRACT v = false -> is_lv_font v = false ->
     fst (cv.use_id Font v st) = Raise e ->
     LvFont_validator v st = (Raise e, st)) /\
  (forall name st, is_lv_font (VStr name) = false ->
     declared st !! name = None ->
     LvFont_validator (VStr name) st = (Raise (Invalid "couldn't find ID"), st)).
Proof.
  split; [ | split].
  - intros s st Hin.
    pose (st1 := mk_state (declared st) ({[ lower s ]} ∪ lv_fonts_used st)
                   (esphome_fonts_used st) (lvgl_components_required st)).
    exists st1, st1.
    split; [now apply builtin_font_step | ].
    split.
    { rewrite builtin_font_step by assumption. f_equal.
      unfold st1. cbn [declared lv_fonts_used esphome_fonts_used
                       lvgl_components_required].
      f_equal. now rewrite (assoc_L (∪)), (idemp_L (∪)). }
    split; [reflexivity | ]. split; [reflexivity | ]. split; [reflexivity | ].
    intros Hnew. unfold st1. cbn [lv_fonts_used].
    rewrite size_union by now apply disjoint_singleton_l.
    rewrite size_singleton. reflexivity.
  - intros v st e Hs Hf He. unfold lv_validation.LvFont_validator.
    rewrite Hs, Hf. unfold bindM.
    pose proof (use_id_state Font v st) as Hst.
    destruct (cv.use_id Font v st) as [[r | e'] st']; cbn [fst snd] in *.
    + discriminate He.
    + injection He as ->. subst st'. reflexivity.
  - intros name st Hf Hd. unfold lv_validation.LvFont_validator.
    cbn [is_SCHEMA_EXTRACT]. rewrite Hf. unfold bindM, cv.use_id.
    rewrite Hd. reflexivity.
Qed.

(** *** Colors *)

(** C10. The color validator returns every integer as it is, negative
    or above 0xFFFFFF alike (and so the other [int] instances). Emitting
    an integer builds the hex-color call and leaves the state unchanged;
    of the three branches of the emission only the last, the reference
    to a declared color, adds the color component to
    [lvgl_components_required]. *)
Theorem color_int_frame :
  (forall n st, color (VInt n) st = (Ok (VInt n), st)) /\
  (forall b st, color (VBool b) st = (Ok (VBool b), st)) /\
  (forall n st, color (VHexInt n) st = (Ok (VHexInt n), st)) /\
  (forall n st, color_retmapper (VInt n) st
                = (Ok (VLvExpr "color_hex" [VHexInt n]), st)) /\
  (forall n st, LValidator_process lv_color (VInt n) st
                = (Ok (VLvExpr "color_hex" [VHexInt n]), st)) /\
  (forall v st,
     lvgl_components_required (snd (color_retmapper v st))
     = if isinstance_Lambda v || isinstance_int v
       then lvgl_components_required st
       else {[ CONF_COLOR ]} ∪ lvgl_components_required st) /\
  (forall name st, color_retmapper (VID name) st
     = (Ok (VLvExpr "color_from" [VMockObj (VID name)]),
        mk_state (declared st) (lv_fonts_used st) (esphome_fonts_used st)
                 ({[ CONF_COLOR ]} ∪ lvgl_components_required st))).
Proof.
  repeat split; try reflexivity.
  intros v st. destruct v; reflexivity.
Qed.

(** *** Durations *)

(** C7. "never" is validated as the text "2147483647ms", so, with a
    duration parser that reads that text as 2147483647 ms, it maps to
    the largest 32-bit signed number of milliseconds; every other value
    is what the duration parser makes of it, and the validated duration
    is emitted as its whole number of milliseconds. *)
Theorem lvms_never :
  positive_time_period_milliseconds (VStr "2147483647ms")
    = Ok (VTimePeriod 2147483647) ->
  lvms_validator_ (VStr "never") = Ok (VTimePeriod 2147483647) /\
  (forall st, LValidator_process lv_milliseconds (VTimePeriod 2147483647) st
              = (Ok (VInt (2 ^ 31 - 1)), st)) /\
  (forall v, eq_str v "never" = false ->
             lvms_validator_ v = positive_time_period_milliseconds v) /\
  (forall ms st, LValidator_process lv_milliseconds (VTimePeriod ms) st
                 = (Ok (VInt ms), st)).
Proof.
  intros H. split; [exact H | ].
  split; [intros st; reflexivity | ].
  split; [ | intros ms st; reflexivity].
  intros v Hv. unfold lv_validation.lvms_validator_. rewrite Hv. reflexivity.
Qed.

(** *** Text *)

(** C9. A dict is returned by the text validator as it is, whatever its
    keys, in any state; a dict without the "args" key, or with a list
    of arguments and without the "format" key, is rejected by the
    emission, with a [KeyError]. *)
Theorem text_dict_unchecked :
  (forall d st, TextValidator_call (VDict d) st = (Ok (VDict d), st)) /\
  (forall d st, d !! CONF_ARGS = None ->
     TextValidator_process (VDict d) st = (Raise (KeyError CONF_ARGS), st)) /\
  (forall d l st, d !! CONF_ARGS = Some (VList l) -> d !! CONF_FORMAT = None ->
     TextValidator_process (VDict d) st = (Raise (KeyError CONF_FORMAT), st)).
Proof.
  split; [intros d st; reflexivity | ]. split.
  - intros d st Ha. unfold lv_validation.TextValidator_process, lift, getitem.
    rewrite Ha. reflexivity.
  - intros d l st Ha Hf.
    unfold lv_validation.TextValidator_process, lift, getitem.
    rewrite Ha. cbn [Py.bind py_iter]. rewrite Hf. reflexivity.
Qed.

Lemma text_dict_emission (d : gmap string value) (fmt : value)
    (args : list value) (esc : string) (st : state) :
  d !! CONF_FORMAT = Some fmt -> d !! CONF_ARGS = Some (VList args) ->
  cpp_string_escape fmt = Ok esc ->
  TextValidator_process (VDict d) st
  = (Ok (VStr ("str_sprintf(" ++ esc ++ ", "
                 ++ join "," (map py_str args) ++ ").c_str()")), st).
Proof.
  intros Hf Ha He.
  unfold lv_validation.TextValidator_process, lift, getitem.
  rewrite Ha. cbn [Py.bind py_iter]. rewrite Hf. cbn [Py.bind].
  rewrite He. reflexivity.
Qed.

(** C6. For a map with a format and a list of arguments, the emission is
    the text str_sprintf(<format>, <args>).c_str() where <format> is the
    escaped format string and <args> the arguments, each as [str] gives
    it (a text argument verbatim), joined by commas: nothing for no
    argument, the argument itself for one, a comma between each two
    (x,y for two; name,3,total in the example with three). A plain string
    is emitted as a string literal, which renders escaped. *)
Theorem text_process_emission :
  (forall d fmt args esc st,
     d !! CONF_FORMAT = Some fmt -> d !! CONF_ARGS = Some (VList args) ->
     cpp_string_escape fmt = Ok esc ->
     TextValidator_process (VDict d) st
     = (Ok (VStr ("str_sprintf(" ++ esc ++ ", "
                    ++ join "," (map py_str args) ++ ").c_str()")), st)) /\
  (forall s, py_str (VStr s) = s) /\
  (forall s st, TextValidator_process (VStr s) st = (Ok (VStringLiteral s), st)) /\
  (forall st, TextValidator_process (VStr "hello") st
              = (Ok (VStringLiteral "hello"), st)) /\
  (forall s, expression_str cpp_string_escape (VStringLiteral s)
             = cpp_string_escape (VStr s)) /\
  (join "," [] = EmptyString /\
   (forall a, join "," [a] = a) /\
   (forall a b r, join "," (a :: b :: r) = a ++ "," ++ join "," (b :: r))) /\
  (forall d fmt esc st,
     d !! CONF_FORMAT = Some fmt -> d !! CONF_ARGS = Some (VList []) ->
     cpp_string_escape fmt = Ok esc ->
     TextValidator_process (VDict d) st
     = (Ok (VStr ("str_sprintf(" ++ esc ++ ", ).c_str()")), st)) /\
  (forall d fmt a esc st,
     d !! CONF_FORMAT = Some fmt -> d !! CONF_ARGS = Some (VList [a]) ->
     cpp_string_escape fmt = Ok esc ->
     TextValidator_process (VDict d) st
     = (Ok (VStr ("str_sprintf(" ++ esc ++ ", " ++ py_str a
                    ++ ").c_str()")), st)) /\
  (forall d fmt a b esc st,
     d !! CONF_FORMAT = Some fmt -> d !! CONF_ARGS = Some (VList [a; b]) ->
     cpp_string_escape fmt = Ok esc ->
     TextValidator_process (VDict d) st
     = (Ok (VStr ("str_sprintf(" ++ esc ++ ", " ++ py_str a ++ ","
                    ++ py_str b ++ ").c_str()")), st)) /\
  (forall l, map py_str (map VStr l) = l) /\
  (forall esc st, cpp_string_escape (VStr "%d items") = Ok esc ->
     TextValidator_process (VDict items_dict) st
     = (Ok (VStr ("str_sprintf(" ++ esc ++ ", x).c_str()")), st)) /\
  (forall esc st, cpp_string_escape (VStr "%s: %d of %d") = Ok esc ->
     TextValidator_process (VDict three_args_dict) st
     = (Ok (VStr ("str_sprintf(" ++ esc ++ ", name,3,total).c_str()")), st)).
Proof.
  split; [apply text_dict_emission | ].
  split; [reflexivity | ].
  split; [reflexivity | ].
  split; [reflexivity | ].
  split; [reflexivity | ].
  split; [split; [reflexivity | split; reflexivity] | ].
  split.
  { intros d fmt esc st Hf Ha He.
    rewrite (text_dict_emission d fmt [] esc st Hf Ha He). reflexivity. }
  split.
  { intros d fmt a esc st Hf Ha He.
    rewrite (text_dict_emission d fmt [a] esc st Hf Ha He). reflexivity. }
  split.
  { intros d fmt a b esc st Hf Ha He.
    rewrite (text_dict_emission d fmt [a; b] esc st Hf Ha He).
    cbn [map join]. rewrite !app_assoc_string. reflexivity. }
  split.
  { induction l as [ | x l IH]; [reflexivity | ]. cbn [map]. now rewrite IH. }
  split.
  { intros esc st He.
    rewrite (text_dict_emission items_dict (VStr "%d items") [VStr "x"] esc st);
      try assumption; vm_compute; reflexivity. }
  intros esc st He.
  rewrite (text_dict_emission three_args_dict (VStr "%s: %d of %d")
             [VStr "name"; VInt 3; VStr "total"] esc st);
    try assumption; vm_compute; reflexivity.
Qed.

End Collaborators.

Lemma font_registry_witness :
  lower "Montserrat_14" ∈ LV_FONTS_sample /\
  exists st1 st2,
    LvFont_validator LV_FONTS_sample requires_sample str_other_sample
      (VStr "Montserrat_14") st0 = (Ok (VStr (lower "Montserrat_14")), st1) /\
    LvFont_validator LV_FONTS_sample requires_sample str_other_sample
      (VStr "Montserrat_14") st1 = (Ok (VStr (lower "Montserrat_14")), st2) /\
    lv_fonts_used st1 = {[ lower "Montserrat_14" ]} ∪ lv_fonts_used st0 /\
    st2 = st1 /\
    esphome_fonts_used st2 = esphome_fonts_used st0 /\
    (lower "Montserrat_14" ∉ lv_fonts_used st0 ->
     base.size (lv_fonts_used st2) = S (base.size (lv_fonts_used st0))).
Proof.
  assert (H : lower "Montserrat_14" ∈ LV_FONTS_sample).
  { replace (lower "Montserrat_14") with "montserrat_14"
      by (vm_compute; reflexivity).
    apply list_elem_of_here. }
  split; [exact H | ].
  exact (proj1 (font_registry LV_FONTS_sample requires_sample str_other_sample)
           "Montserrat_14" st0 H).
Defined.

Lemma lvms_never_witness :
  period_sample (VStr "2147483647ms") = Ok (VTimePeriod 2147483647) /\
  lvms_validator_ period_sample (VStr "never") = Ok (VTimePeriod 2147483647).
Proof.
  assert (H : period_sample (VStr "2147483647ms") = Ok (VTimePeriod 2147483647))
    by (vm_compute; reflexivity).
  split; [exact H | ].
  exact (proj1 (lvms_never period_sample H)).
Defined.

Lemma text_dict_unchecked_witness :
  (∅ : gmap string value) !! CONF_ARGS = None /\
  TextValidator_process escape_sample string_sample str_other_sample
    (VDict ∅) st0 = (Raise (KeyError CONF_ARGS), st0).
Proof.
  assert (H : (∅ : gmap string value) !! CONF_ARGS = None) by reflexivity.
  split; [exact H | ].
  exact (proj1 (proj2 (text_dict_unchecked escape_sample string_sample
                         str_other_sample)) ∅ st0 H).
Defined.

Lemma text_process_emission_witness :
  (three_args_dict !! CONF_FORMAT = Some (VStr "%s: %d of %d") /\
   three_args_dict !! CONF_ARGS
     = Some (VList [VStr "name"; VInt 3; VStr "total"]) /\
   escape_sample (VStr "%s: %d of %d")
     = Ok (dquote ++ "%s: %d of %d" ++ dquote)) /\
  TextValidator_process escape_sample string_sample str_other_sample
    (VDict three_args_dict) st0
  = (Ok (VStr ("str_sprintf(" ++ dquote ++ "%s: %d of %d" ++ dquote
                 ++ ", name,3,total).c_str()")), st0).
Proof.
  assert (H1 : three_args_dict !! CONF_FORMAT = Some (VStr "%s: %d of %d"))
    by (vm_compute; reflexivity).
  assert (H2 : three_args_dict !! CONF_ARGS
               = Some (VList [VStr "name"; VInt 3; VStr "total"]))
    by (vm_compute; reflexivity).
  assert (H3 : escape_sample (VStr "%s: %d of %d")
               = Ok (dquote ++ "%s: %d of %d" ++ dquote)) by reflexivity.
  split; [repeat split; assumption | ].
  exact (proj1 (text_process_emission escape_sample string_sample
                  str_other_sample)
           three_args_dict (VStr "%s: %d of %d")
           [VStr "name"; VInt 3; VStr "total"] _ st0 H1 H2 H3).
Defined.

(** C4 as stated fails: zoom has no describe branch. The sentinel is
    handed to the range check, which raises; the call returns nothing. *)
Lemma zoom_sentinel_raises :
  zoom VSchemaExtract = Raise (Invalid "expected float") /\
  (forall shapes, zoom VSchemaExtract <> Ok shapes).
Proof.
  split; [reflexivity | ]. intros shapes. discriminate.
Qed.

End lv_validation_spec.

(* ===================================================================== *)
(** ** Further properties of the validators *)
(* ===================================================================== *)

Module lv_validation_more.
Import Py helpers defines lv_validation samples float_facts lv_validation_spec.
Local Open Scope py_scope.

(** *** Percent lengths *)

(** X1. A percentage handed to the pixels-or-percent validator (anything
    that is no [int] and that [cv.percentage] accepts as the float [p])
    always yields the text lv_pct(n), with [n = int(p * 100)] the
    truncated binary64 product, between 0 and 100. *)
Theorem percent_length_range (v : value) (p : spec_float) :
  isinstance_int v = false -> cv.percentage v = Ok (VFloat p) ->
  valid_float p = true ->
  exists n, pixels_or_percent_validator v
            = Ok (VStr ("lv_pct(" ++ str_int n ++ ")")) /\
            int_of_float (fmul p (float_of_Z 100)) = Ok n /\
            n = Qfloor (Q_of_float (fmul p (float_of_Z 100))) /\
            0 <= n <= 100.
Proof.
  intros Hint Hp Hv.
  destruct (percentage_range v _ Hp) as (p' & Heq & H0 & H1).
  injection Heq as <-.
  destruct (int_times_100_range p Hv H0 H1) as (n & Hn & Hr & Hfl).
  exists n. repeat split; try lia; try assumption.
  unfold pixels_or_percent_validator.
  rewrite (percentage_not_sentinel v _ Hp), Hint, Hp.
  cbn [Py.bind]. unfold lv_pct. rewrite Hn. reflexivity.
Qed.

Lemma percent_length_range_witness :
  (isinstance_int (VStr "29%") = false /\
   cv.percentage (VStr "29%")
     = Ok (VFloat (S754_finite false 5224175567749775 (-54))) /\
   valid_float (S754_finite false 5224175567749775 (-54)) = true) /\
  exists n, pixels_or_percent_validator (VStr "29%")
            = Ok (VStr ("lv_pct(" ++ str_int n ++ ")")) /\
            int_of_float (fmul (S754_finite false 5224175567749775 (-54))
                               (float_of_Z 100)) = Ok n /\
            n = Qfloor (Q_of_float
                  (fmul (S754_finite false 5224175567749775 (-54))
                        (float_of_Z 100))) /\
            0 <= n <= 100.
Proof.
  assert (H1 : isinstance_int (VStr "29%") = false) by reflexivity.
  assert (H2 : cv.percentage (VStr "29%")
               = Ok (VFloat (S754_finite false 5224175567749775 (-54))))
    by (vm_compute; reflexivity).
  assert (H3 : valid_float (S754_finite false 5224175567749775 (-54)) = true)
    by (vm_compute; reflexivity).
  split; [repeat split; assumption | ].
  exact (percent_length_range (VStr "29%") _ H1 H2 H3).
Defined.

(** X2. The size validator extends the pixels-or-percent validator: on
    every value that is no text (and not the sentinel), and on every text
    that ends in a percent sign, the two return the same result or raise
    the same error. *)
Theorem size_extends_pixels_or_percent :
  (forall v, as_str v = None -> is_SCHEMA_EXTRACT v = false ->
     size_validator v = pixels_or_percent_validator v) /\
  (forall s, endswith s "%" = true ->
     size_validator (VStr s) = pixels_or_percent_validator (VStr s)).
Proof.
  split.
  - intros v Hs Hx. unfold size_validator, pixels_or_percent_validator.
    rewrite Hx, Hs. cbn [Py.bind]. rewrite Hs. reflexivity.
  - intros s Hpc. unfold size_validator, pixels_or_percent_validator.
    cbn [is_SCHEMA_EXTRACT as_str isinstance_int].
    rewrite (percent_text_not_px s Hpc). cbn [Py.bind as_str].
    rewrite Hpc. reflexivity.
Qed.

Lemma size_extends_pixels_or_percent_witness :
  endswith "50%" "%" = true /\
  size_validator (VStr "50%") = pixels_or_percent_validator (VStr "50%").
Proof.
  assert (H : endswith "50%" "%" = true) by reflexivity.
  split; [exact H | ].
  exact (proj2 size_extends_pixels_or_percent "50%" H).
Defined.

(** *** Angles and gradient stops *)

(** [int(x * 10)] for an angle [x] between 0.0 and 360.0. *)
Lemma int_times_10_range (x : spec_float) :
  valid_float x = true -> fle f0_0 x = true -> fle x f360_0 = true ->
  exists n, int_times (VFloat x) 10 = Ok n /\ 0 <= n <= 3600 /\
            n = Qfloor (Q_of_float (fmul x (float_of_Z 10))).
Proof.
  intros Hv H0 H1.
  destruct (int_of_scaled_range x 6333186975989760 (-44) 360 10 12
              5629499534213120 49) as (n & Hn & Hr & Hpos);
    try assumption; try (vm_compute; reflexivity); try (vm_compute; discriminate).
  - split; vm_compute; discriminate.
  - exists n. cbn [int_times]. repeat split; try lia; try assumption.
    now apply int_of_float_floor.
Qed.

(** X3. When [cv.angle] reads the value as the number [x] of degrees:
    with 0.0 <= x <= 360.0 the angle validator returns [int(x * 10)],
    the truncated binary64 product, between 0 and 3600; with [x] outside
    that range (or not a number) it raises the range error. An error of
    [cv.angle] is raised as it is. *)
Theorem angle_range (cv_angle : value -> result value)
    (v a : value) (x : spec_float) :
  cv_angle v = Ok a -> float_of_value a = Some x -> valid_float x = true ->
  (fle f0_0 x && fle x f360_0 = true ->
   exists n, angle cv_angle v = Ok (VInt n) /\
             int_of_float (fmul x (float_of_Z 10)) = Ok n /\
             n = Qfloor (Q_of_float (fmul x (float_of_Z 10))) /\
             0 <= n <= 3600) /\
  (fle f0_0 x && fle x f360_0 = false ->
   angle cv_angle v = Raise (Invalid "value out of range")) /\
  (forall w e, cv_angle w = Raise e -> angle cv_angle w = Raise e).
Proof.
  intros Ha Hx Hv. split; [ | split].
  - intros Hr. apply andb_prop in Hr as [H0 H1].
    destruct (int_times_10_range x Hv H0 H1) as (n & Hn & Hb & Hfl).
    exists n. repeat split; try lia; try assumption.
    unfold angle, cv.float_range. rewrite Ha. cbn [Py.bind].
    rewrite Hx, H0, H1. cbn [andb Py.bind]. rewrite Hn. reflexivity.
  - intros Hr. unfold angle, cv.float_range. rewrite Ha. cbn [Py.bind].
    rewrite Hx, Hr. reflexivity.
  - intros w e He. unfold angle. rewrite He. reflexivity.
Qed.

Lemma angle_range_witness :
  (angle_sample (VFloat f180_0) = Ok (VFloat f180_0) /\
   float_of_value (VFloat f180_0) = Some f180_0 /\
   valid_float f180_0 = true /\
   fle f0_0 f180_0 && fle f180_0 f360_0 = true) /\
  exists n, angle angle_sample (VFloat f180_0) = Ok (VInt n) /\
            int_of_float (fmul f180_0 (float_of_Z 10)) = Ok n /\
            n = Qfloor (Q_of_float (fmul f180_0 (float_of_Z 10))) /\
            0 <= n <= 3600.
Proof.
  assert (H1 : angle_sample (VFloat f180_0) = Ok (VFloat f180_0))
    by reflexivity.
  assert (H2 : float_of_value (VFloat f180_0) = Some f180_0) by reflexivity.
  assert (H3 : valid_float f180_0 = true) by (vm_compute; reflexivity).
  assert (H4 : fle f0_0 f180_0 && fle f180_0 f360_0 = true)
    by (vm_compute; reflexivity).
  split; [repeat split; assumption | ].
  exact (proj1 (angle_range angle_sample (VFloat f180_0) (VFloat f180_0)
                  f180_0 H1 H2 H3) H4).
Defined.

Lemma int__int_value (v w : value) :
  cv.int_ v = Ok w -> exists n, int_value w = Some n.
Proof.
  destruct v; cbn [cv.int_]; intros H; try discriminate H;
    try (injection H as <-; cbn [int_value]; eauto).
  - destruct (int_of_float x) as [n | e]; [ | discriminate H].
    destruct (SFeqb (float_of_Z n) x); [ | discriminate H].
    injection H as <-. cbn. eauto.
  - destruct (int_of_str s) as [n | ]; [ | discriminate H].
    injection H as <-. cbn. eauto.
Qed.

(** X4. Whatever the gradient-stop validator accepts, be it an [int], a
    float without fraction or decimal text, the result stands for an
    integer between 0 and 255; an [int] is accepted exactly when it lies
    in that range, and is then returned unchanged. *)
Theorem stop_value_range :
  (forall v w, stop_value v = Ok w ->
     exists n, int_value w = Some n /\ 0 <= n <= 255) /\
  (forall n, 0 <= n <= 255 -> stop_value (VInt n) = Ok (VInt n)) /\
  (forall n, n < 0 \/ 255 < n ->
     stop_value (VInt n) = Raise (Invalid "value out of range")).
Proof.
  split; [ | split].
  - intros v w. unfold stop_value, cv.int_range.
    destruct (cv.int_ v) as [w' | e] eqn:Hi; cbn [Py.bind]; [ | discriminate].
    destruct (int__int_value v w' Hi) as [n Hn]. rewrite Hn.
    destruct ((0 <=? n) && (n <=? 255)) eqn:Hr; [ | discriminate].
    intros H. injection H as <-. exists n. split; [assumption | ].
    apply andb_prop in Hr as [H0 H1].
    apply Z.leb_le in H0. apply Z.leb_le in H1. lia.
  - intros n [H0 H1]. unfold stop_value, cv.int_range.
    cbn [cv.int_ Py.bind int_value].
    apply Z.leb_le in H0. apply Z.leb_le in H1. rewrite H0, H1. reflexivity.
  - intros n Hn. unfold stop_value, cv.int_range.
    cbn [cv.int_ Py.bind int_value].
    replace ((0 <=? n) && (n <=? 255)) with false; [reflexivity | ].
    symmetry. apply andb_false_iff.
    destruct Hn as [Hn | Hn]; [left | right]; apply Z.leb_gt; lia.
Qed.

Lemma stop_value_range_witness :
  stop_value (VStr "255") = Ok (VInt 255) /\
  exists n, int_value (VInt 255) = Some n /\ 0 <= n <= 255.
Proof.
  assert (H : stop_value (VStr "255") = Ok (VInt 255))
    by (vm_compute; reflexivity).
  split; [exact H | ].
  exact (proj1 stop_value_range (VStr "255") (VInt 255) H).
Defined.

(** *** Alternatives, opacity and radius *)

(** Alternatives that leave the state alone make a [cv.Any] that leaves
    the state alone. *)
Lemma Any_frame (fs : list (value -> M value)) :
  (forall f, In f fs -> forall v st, snd (f v st) = st) ->
  forall v st, snd (cv.Any fs v st) = st.
Proof.
  induction fs as [ | f fs IH]; intros Hfs v st; [reflexivity | ].
  cbn [cv.Any].
  pose proof (Hfs f (or_introl eq_refl) v st) as Hf.
  destruct (f v st) as [[r | e] st1]; cbn [snd] in Hf; subst st1;
    [reflexivity | ].
  assert (Hrest : snd (cv.Any fs v st) = st).
  { apply IH. intros g Hg. apply Hfs. now right. }
  destruct (cv.Any fs v st) as [[r | e'] st2]; cbn [snd] in Hrest; subst st2;
    reflexivity.
Qed.

Lemma LvConstant_call_frame (c : LvConstant) (v : value) (st : state) :
  snd (LValidator_call (one_of c) v st) = st.
Proof.
  assert (H : snd (LvConstant_validator c v st) = st).
  { unfold LvConstant_validator. destruct (is_SCHEMA_EXTRACT v); [reflexivity | ].
    destruct v; try reflexivity.
    match goal with |- context [if ?b then _ else _] => destruct b end;
      reflexivity. }
  destruct v; exact H.
Qed.

(** What a constant set accepts is one of its choices under its prefix. *)
Lemma LvConstant_call_result (c : LvConstant) (v r : value) (st : state) :
  is_SCHEMA_EXTRACT v = false ->
  fst (LValidator_call (one_of c) v st) = Ok r ->
  exists suffix, In suffix (choices c) /\ r = VStr (prefix c ++ suffix).
Proof.
  intros Hx.
  assert (H : fst (LvConstant_validator c v st) = Ok r ->
              exists suffix, In suffix (choices c) /\
                             r = VStr (prefix c ++ suffix)).
  { unfold LvConstant_validator. rewrite Hx.
    destruct v; try discriminate.
    match goal with |- context [existsb ?f ?l] =>
      destruct (existsb f l) eqn:Hex end; [ | discriminate].
    apply existsb_exists in Hex as (suffix & Hin & Heq).
    apply String.eqb_eq in Heq. cbn [fst ret]. intros H. injection H as <-.
    exists suffix. split; [exact Hin | ]. now rewrite Heq. }
  destruct v; exact H.
Qed.

Lemma percentage_lift_frame (v : value) (st : state) :
  snd (lift (cv.percentage v) st) = st.
Proof. reflexivity. Qed.

(** X5. The opacity validator never changes the state, whether it
    accepts or raises, and what it accepts (the sentinel apart) comes
    back as an integer or as one of the two tokens LV_OPA_TRANSP and
    LV_OPA_COVER: a float never leaves it. *)
Theorem opacity_validator_result (v : value) (st : state) :
  snd (opacity_validator v st) = st /\
  (forall r, is_SCHEMA_EXTRACT v = false ->
     fst (opacity_validator v st) = Ok r ->
     (exists n, r = VInt n) \/ r = VStr "LV_OPA_TRANSP" \/
     r = VStr "LV_OPA_COVER").
Proof.
  unfold opacity_validator.
  destruct (is_SCHEMA_EXTRACT v) eqn:Hx.
  { split; [reflexivity | ]. intros r H. discriminate H. }
  unfold bindM. cbn [cv.Any]. unfold lift, raise, ret.
  destruct (cv.percentage v) as [w | e] eqn:Hp; cbv beta iota.
  - destruct (percentage_range v w Hp) as (p & -> & _ & _).
    cbn [isinstance_float].
    destruct (int_times (VFloat p) 255) as [n | e];
      (split; [reflexivity | ]); intros r _ H; [ | discriminate H].
    injection H as <-. left. now exists n.
  - pose proof (LvConstant_call_frame opacity_consts v st) as Hst.
    pose proof (fun r => LvConstant_call_result opacity_consts v r st Hx) as Hres.
    destruct (LValidator_call (one_of opacity_consts) v st) as [[w | e'] st1];
      cbn [snd] in Hst; subst st1; cbv beta iota.
    + destruct (Hres w eq_refl) as (suffix & Hin & ->).
      cbn [isinstance_float]. split; [reflexivity | ].
      intros r _ H. injection H as <-. right.
      destruct Hin as [<- | [<- | []]]; [left | right]; reflexivity.
    + split; [reflexivity | ]. intros r _ H. discriminate H.
Qed.

Lemma opacity_validator_result_witness :
  (is_SCHEMA_EXTRACT (VStr "cover") = false /\
   fst (opacity_validator (VStr "cover") st0) = Ok (VStr "LV_OPA_COVER")) /\
  ((exists n, VStr "LV_OPA_COVER" = VInt n) \/
   VStr "LV_OPA_COVER" = VStr "LV_OPA_TRANSP" \/
   VStr "LV_OPA_COVER" = VStr "LV_OPA_COVER").
Proof.
  assert (H1 : is_SCHEMA_EXTRACT (VStr "cover") = false) by reflexivity.
  assert (H2 : fst (opacity_validator (VStr "cover") st0)
               = Ok (VStr "LV_OPA_COVER")) by (vm_compute; reflexivity).
  split; [split; assumption | ].
  exact (proj2 (opacity_validator_result (VStr "cover") st0) _ H1 H2).
Defined.

(** X6. The radius validator never changes the state, whether it
    accepts or raises, and never returns a float: whatever the
    percentage alternative produces is converted before it is returned. *)
Theorem radius_validator_result (v : value) (st : state) :
  snd (radius_validator v st) = st /\
  (forall r, fst (radius_validator v st) = Ok r -> isinstance_float r = false).
Proof.
  unfold radius_validator.
  destruct (is_SCHEMA_EXTRACT v) eqn:Hx.
  { split; [reflexivity | ]. intros r H. injection H as <-. reflexivity. }
  unfold bindM. cbn [cv.Any]. rewrite LValidator_call_size.
  unfold lift, raise, ret.
  destruct (size_validator v) as [w | e] eqn:Hs; cbv beta iota.
  - rewrite (size_validator_not_float v w Hs). split; [reflexivity | ].
    intros r H. injection H as <-. now apply (size_validator_not_float v).
  - destruct (cv.percentage v) as [w | e1] eqn:Hp; cbv beta iota.
    + destruct (percentage_range v w Hp) as (p & -> & _ & _).
      cbn [isinstance_float].
      destruct (int_times (VFloat p) 255) as [n | e2];
        (split; [reflexivity | ]); intros r H; [ | discriminate H].
      injection H as <-. reflexivity.
    + pose proof (LvConstant_call_frame radius_consts v st) as Hst.
      pose proof (fun r => LvConstant_call_result radius_consts v r st Hx)
        as Hres.
      destruct (LValidator_call (one_of radius_consts) v st) as [[w | e'] st1];
        cbn [snd] in Hst; subst st1; cbv beta iota.
      * destruct (Hres w eq_refl) as (suffix & Hin & ->).
        cbn [isinstance_float]. split; [reflexivity | ].
        intros r H. injection H as <-. reflexivity.
      * split; [reflexivity | ]. intros r H. discriminate H.
Qed.

Lemma radius_validator_result_witness :
  fst (radius_validator (VStr "0.5") st0) = Ok (VInt 127) /\
  isinstance_float (VInt 127) = false.
Proof.
  assert (H : fst (radius_validator (VStr "0.5") st0) = Ok (VInt 127))
    by (vm_compute; reflexivity).
  split; [exact H | ].
  exact (proj2 (radius_validator_result (VStr "0.5") st0) _ H).
Defined.

(** *** From validation to emission *)

Lemma size_validator_nonstr (v : value) :
  as_str v = None -> is_SCHEMA_EXTRACT v = false ->
  size_validator v
  = if isinstance_int v then cv.int_ v
    else (let! p := cv.percentage v in lv_pct p).
Proof.
  intros Hs Hx. unfold size_validator. rewrite Hx, Hs.
  cbn [Py.bind]. rewrite Hs. reflexivity.
Qed.

Lemma int__of_int (v : value) : isinstance_int v = true -> cv.int_ v = Ok v.
Proof. destruct v; try discriminate; reflexivity. Qed.

(** X7. Emission after validation, for sizes: whatever the size
    validator accepts (the sentinel apart) is emitted without error and
    without touching the state, as the constant literal LV_SIZE_CONTENT,
    as a constant literal lv_pct(n), or as the integer itself. *)
Theorem size_validated_emits (v r : value) (st : state) :
  is_SCHEMA_EXTRACT v = false -> size_validator v = Ok r ->
  exists e, LValidator_process size r st = (Ok e, st) /\
    (e = VConstantLiteral "LV_SIZE_CONTENT" \/
     (exists n, e = VConstantLiteral ("lv_pct(" ++ str_int n ++ ")")) \/
     (isinstance_int e = true /\ e = r)).
Proof.
  intros Hx Hr.
  assert (Hshape : r = VStr "LV_SIZE_CONTENT" \/
                   (exists n, r = VStr ("lv_pct(" ++ str_int n ++ ")")) \/
                   isinstance_int r = true).
  { destruct (as_str v) as [s | ] eqn:Hs.
    - destruct v; try discriminate Hs. injection Hs as ->.
      destruct (size_validator_str_shapes s r Hr)
        as [[-> _] | [(n & -> & _) | (n & -> & _)]].
      + now left.
      + right. right. reflexivity.
      + right. left. now exists n.
    - rewrite (size_validator_nonstr v Hs Hx) in Hr.
      destruct (isinstance_int v) eqn:Hi.
      + rewrite (int__of_int v Hi) in Hr. injection Hr as <-.
        right. right. exact Hi.
      + destruct (cv.percentage v) as [p | e]; cbn [Py.bind] in Hr;
          [ | discriminate Hr].
        destruct (lv_pct_shape p r Hr) as [n ->]. right. left. now exists n. }
  destruct Hshape as [-> | [[n ->] | Hi]].
  - eexists. split; [reflexivity | ]. now left.
  - eexists. split; [reflexivity | ]. right. left. now exists n.
  - exists r. split.
    + destruct r; try discriminate Hi; reflexivity.
    + right. right. split; [exact Hi | reflexivity].
Qed.

Lemma size_validated_emits_witness :
  (is_SCHEMA_EXTRACT (VStr "12PX") = false /\
   size_validator (VStr "12PX") = Ok (VInt 12)) /\
  exists e, LValidator_process size (VInt 12) st0 = (Ok e, st0) /\
    (e = VConstantLiteral "LV_SIZE_CONTENT" \/
     (exists n, e = VConstantLiteral ("lv_pct(" ++ str_int n ++ ")")) \/
     (isinstance_int e = true /\ e = VInt 12)).
Proof.
  assert (H1 : is_SCHEMA_EXTRACT (VStr "12PX") = false) by reflexivity.
  assert (H2 : size_validator (VStr "12PX") = Ok (VInt 12))
    by (vm_compute; reflexivity).
  split; [split; assumption | ].
  exact (size_validated_emits (VStr "12PX") (VInt 12) st0 H1 H2).
Defined.

(** *** Fonts and colors *)

Lemma lower_ascii_idem (c : ascii) : lower_ascii (lower_ascii c) = lower_ascii c.
Proof. destruct c as [[] [] [] [] [] [] [] []]; reflexivity. Qed.

Lemma lower_idem (s : string) : lower (lower s) = lower s.
Proof.
  unfold lower. induction s as [ | c s IH]; [reflexivity | ].
  cbn [map_string]. now rewrite lower_ascii_idem, IH.
Qed.

Section Collaborators.

Variable LV_FONTS : list string.
Variable cv_requires_component : string -> value -> result value.
Variable returning_lambda : value -> result value.
Variable str_other : value -> string.

Local Notation LvFont_validator :=
  (LvFont_validator LV_FONTS cv_requires_component str_other).
Local Notation LvFont_process := (LvFont_process LV_FONTS str_other).
Local Notation is_lv_font := (is_lv_font LV_FONTS).
Local Notation color_retmapper := (color_retmapper returning_lambda).

Lemma is_lv_font_inv (v : value) :
  is_lv_font v = true -> exists s, v = VStr s /\ lower s ∈ LV_FONTS.
Proof.
  unfold lv_validation.is_lv_font. destruct v; try discriminate.
  cbn [as_str]. intros H. exists s. split; [reflexivity | ].
  now apply bool_decide_eq_true_1 in H.
Qed.

(** The state after the validation of a value that is no built-in font:
    unchanged when the lookup fails, otherwise the asset and the font
    component are recorded, whatever the component check answers. *)
Lemma font_asset_state (v : value) (st : state) :
  is_SCHEMA_EXTRACT v = false -> is_lv_font v = false ->
  snd (LvFont_validator v st) = st \/
  exists name,
    fst (cv.use_id Font v st) = Ok (VID name) /\
    LvFont_validator v st
    = (cv_requires_component "font" (VID name),
       mk_state (declared st) (lv_fonts_used st)
                ({[ name ]} ∪ esphome_fonts_used st)
                ({[ "font" ]} ∪ lvgl_components_required st)).
Proof.
  intros Hx Hf. unfold lv_validation.LvFont_validator. rewrite Hx, Hf.
  unfold bindM. unfold cv.use_id.
  destruct v; try (left; reflexivity).
  - destruct (declared st !! s) as [t | ]; [ | left; reflexivity].
    destruct (bool_decide (t = Font)); [ | left; reflexivity].
    right. exists s. split; reflexivity.
  - destruct (declared st !! name) as [t | ]; [ | left; reflexivity].
    destruct (bool_decide (t = Font)); [ | left; reflexivity].
    right. exists name. split; reflexivity.
Qed.

(** X8. The registries only grow, and each call of the font validator
    feeds one side only: the table of declared entities is never
    changed, no recorded font or component is ever removed, a built-in
    font leaves [esphome_fonts_used] and [lvgl_components_required] as
    they were, and any other value leaves [lv_fonts_used] as it was. *)
Theorem font_registries_grow (v : value) (st : state) :
  declared (snd (LvFont_validator v st)) = declared st /\
  lv_fonts_used st ⊆ lv_fonts_used (snd (LvFont_validator v st)) /\
  esphome_fonts_used st ⊆ esphome_fonts_used (snd (LvFont_validator v st)) /\
  lvgl_components_required st
    ⊆ lvgl_components_required (snd (LvFont_validator v st)) /\
  (is_lv_font v = true ->
   esphome_fonts_used (snd (LvFont_validator v st)) = esphome_fonts_used st /\
   lvgl_components_required (snd (LvFont_validator v st))
   = lvgl_components_required st) /\
  (is_lv_font v = false ->
   lv_fonts_used (snd (LvFont_validator v st)) = lv_fonts_used st).
Proof.
  destruct (is_SCHEMA_EXTRACT v) eqn:Hx.
  { assert (H : snd (LvFont_validator v st) = st).
    { unfold lv_validation.LvFont_validator. rewrite Hx. reflexivity. }
    rewrite H. repeat split; reflexivity. }
  destruct (is_lv_font v) eqn:Hf.
  - destruct (is_lv_font_inv v Hf) as (s & -> & Hin).
    rewrite builtin_font_step by assumption.
    cbn [snd declared lv_fonts_used esphome_fonts_used
         lvgl_components_required].
    split; [reflexivity | ]. split; [apply union_subseteq_r | ].
    split; [reflexivity | ]. split; [reflexivity | ].
    split; [intros _; split; reflexivity | discriminate].
  - destruct (font_asset_state v st Hx Hf) as [H | (name & _ & H)];
      rewrite H.
    + split; [reflexivity | ]. split; [reflexivity | ].
      split; [reflexivity | ]. split; [reflexivity | ].
      split; [discriminate | reflexivity].
    + cbn [snd declared lv_fonts_used esphome_fonts_used
           lvgl_components_required].
      split; [reflexivity | ]. split; [reflexivity | ].
      split; [apply union_subseteq_r | ]. split; [apply union_subseteq_r | ].
      split; [discriminate | reflexivity].
Qed.

(** X9. A value that is no built-in font and that names a declared font
    asset: the asset is recorded in [esphome_fonts_used], the component
    "font" in [lvgl_components_required], [lv_fonts_used] is untouched,
    and the result is what the component check answers; validating the
    same name again changes nothing more; the validated reference is
    emitted as the accessor <name>_engine->get_lv_font(). *)
Theorem font_asset_recorded (name : string) (st : state) :
  is_lv_font (VStr name) = false -> declared st !! name = Some Font ->
  exists st1,
    LvFont_validator (VStr name) st
      = (cv_requires_component "font" (VID name), st1) /\
    lv_fonts_used st1 = lv_fonts_used st /\
    esphome_fonts_used st1 = {[ name ]} ∪ esphome_fonts_used st /\
    lvgl_components_required st1 = {[ "font" ]} ∪ lvgl_components_required st /\
    snd (LvFont_validator (VStr name) st1) = st1 /\
    LvFont_process (VID name) st1
      = (Ok (VConstantLiteral (name ++ "_engine->get_lv_font()")), st1).
Proof.
  intros Hf Hd.
  assert (Hstep : forall st', declared st' !! name = Some Font ->
            LvFont_validator (VStr name) st'
            = (cv_requires_component "font" (VID name),
               mk_state (declared st') (lv_fonts_used st')
                        ({[ name ]} ∪ esphome_fonts_used st')
                        ({[ "font" ]} ∪ lvgl_components_required st'))).
  { intros st' Hd'. unfold lv_validation.LvFont_validator.
    cbn [is_SCHEMA_EXTRACT]. rewrite Hf. unfold bindM, cv.use_id.
    rewrite Hd'. reflexivity. }
  eexists. split; [apply Hstep; exact Hd | ].
  cbn [declared lv_fonts_used esphome_fonts_used lvgl_components_required].
  split; [reflexivity | ]. split; [reflexivity | ]. split; [reflexivity | ].
  split; [ | reflexivity].
  rewrite Hstep by exact Hd.
  cbn [snd declared lv_fonts_used esphome_fonts_used lvgl_components_required].
  f_equal; now rewrite (assoc_L (∪)), (idemp_L (∪)).
Qed.

(** X10. Emission after validation, for built-in fonts: a built-in name in
    any spelling is validated to its lower-case form, which the emission
    recognises as built-in and turns into &lv_font_<name>; any other
    spelling of the same font, validated afterwards, changes nothing. *)
Theorem builtin_font_emission (s : string) (st : state) :
  lower s ∈ LV_FONTS ->
  exists st1,
    LvFont_validator (VStr s) st = (Ok (VStr (lower s)), st1) /\
    is_lv_font (VStr (lower s)) = true /\
    LvFont_process (VStr (lower s)) st1
      = (Ok (VConstantLiteral ("&lv_font_" ++ lower s)), st1) /\
    (forall t, lower t = lower s ->
       LvFont_validator (VStr t) st1 = (Ok (VStr (lower s)), st1)).
Proof.
  intros Hin. eexists. split; [now apply builtin_font_step | ].
  assert (Hrec : is_lv_font (VStr (lower s)) = true).
  { unfold lv_validation.is_lv_font. cbn [as_str]. rewrite lower_idem.
    now apply bool_decide_eq_true_2. }
  split; [exact Hrec | ]. split.
  - unfold lv_validation.LvFont_process. rewrite Hrec. reflexivity.
  - intros t Ht. rewrite builtin_font_step by (rewrite Ht; exact Hin).
    rewrite Ht. f_equal.
    cbn [declared lv_fonts_used esphome_fonts_used lvgl_components_required].
    f_equal. now rewrite (assoc_L (∪)), (idemp_L (∪)).
Qed.

(** X11. Emission after validation, for colors. The color validator
    never changes the state; what it accepts (the sentinel apart) is
    either the [int] it was given, which is emitted as the hex-color
    call with the state unchanged, or the reference to a declared color
    asset, which is emitted as the color-from call and adds the color
    component. The emission of a validated color never raises. *)
Theorem color_validated_emits (v : value) (st : state) :
  snd (color v st) = st /\
  (forall r, is_SCHEMA_EXTRACT v = false -> fst (color v st) = Ok r ->
     (exists n, int_value v = Some n /\ r = v /\
        color_retmapper r st = (Ok (VLvExpr "color_hex" [VHexInt n]), st)) \/
     (exists name, r = VID name /\ declared st !! name = Some ColorStruct /\
        color_retmapper r st
        = (Ok (VLvExpr "color_from" [VMockObj (VID name)]),
           mk_state (declared st) (lv_fonts_used st) (esphome_fonts_used st)
                    ({[ CONF_COLOR ]} ∪ lvgl_components_required st)))).
Proof.
  unfold color. destruct (is_SCHEMA_EXTRACT v) eqn:Hx.
  { split; [reflexivity | ]. intros r H. discriminate H. }
  destruct (isinstance_int v) eqn:Hi.
  - split; [reflexivity | ]. intros r _ H. injection H as <-. left.
    destruct v; try discriminate Hi; eexists; repeat split; reflexivity.
  - split; [apply use_id_state | ]. intros r _.
    unfold cv.use_id.
    destruct v; try discriminate.
    + destruct (declared st !! s) as [t | ] eqn:Hd; [ | discriminate].
      destruct (bool_decide (t = ColorStruct)) eqn:Ht; [ | discriminate].
      apply bool_decide_eq_true_1 in Ht. subst t.
      intros H. injection H as <-. right. exists s.
      split; [reflexivity | split; [exact Hd | reflexivity]].
    + destruct (declared st !! name) as [t | ] eqn:Hd; [ | discriminate].
      destruct (bool_decide (t = ColorStruct)) eqn:Ht; [ | discriminate].
      apply bool_decide_eq_true_1 in Ht. subst t.
      intros H. injection H as <-. right. exists name.
      split; [reflexivity | split; [exact Hd | reflexivity]].
Qed.

End Collaborators.

Lemma font_registries_grow_witness :
  is_lv_font LV_FONTS_sample (VStr "my_font") = false /\
  lv_fonts_used (snd (LvFont_validator LV_FONTS_sample requires_sample
                        str_other_sample (VStr "my_font") st_declared))
  = lv_fonts_used st_declared.
Proof.
  assert (H : is_lv_font LV_FONTS_sample (VStr "my_font") = false)
    by (vm_compute; reflexivity).
  split; [exact H | ].
  exact (proj2 (proj2 (proj2 (proj2 (proj2
           (font_registries_grow LV_FONTS_sample requires_sample
              str_other_sample (VStr "my_font") st_declared))))) H).
Defined.

Lemma font_asset_recorded_witness :
  (is_lv_font LV_FONTS_sample (VStr "my_font") = false /\
   declared st_declared !! "my_font" = Some Font) /\
  exists st1,
    LvFont_validator LV_FONTS_sample requires_sample str_other_sample
      (VStr "my_font") st_declared
      = (requires_sample "font" (VID "my_font"), st1) /\
    lv_fonts_used st1 = lv_fonts_used st_declared /\
    esphome_fonts_used st1 = {[ "my_font" ]} ∪ esphome_fonts_used st_declared /\
    lvgl_components_required st1
      = {[ "font" ]} ∪ lvgl_components_required st_declared /\
    snd (LvFont_validator LV_FONTS_sample requires_sample str_other_sample
           (VStr "my_font") st1) = st1 /\
    LvFont_process LV_FONTS_sample str_other_sample (VID "my_font") st1
      = (Ok (VConstantLiteral ("my_font" ++ "_engine->get_lv_font()")), st1).
Proof.
  assert (H1 : is_lv_font LV_FONTS_sample (VStr "my_font") = false)
    by (vm_compute; reflexivity).
  assert (H2 : declared st_declared !! "my_font" = Some Font)
    by (vm_compute; reflexivity).
  split; [split; assumption | ].
  exact (font_asset_recorded LV_FONTS_sample requires_sample str_other_sample
           "my_font" st_declared H1 H2).
Defined.

Lemma builtin_font_emission_witness :
  lower "UNSCII_8" ∈ LV_FONTS_sample /\
  exists st1,
    LvFont_validator LV_FONTS_sample requires_sample str_other_sample
      (VStr "UNSCII_8") st0 = (Ok (VStr (lower "UNSCII_8")), st1) /\
    is_lv_font LV_FONTS_sample (VStr (lower "UNSCII_8")) = true /\
    LvFont_process LV_FONTS_sample str_other_sample
      (VStr (lower "UNSCII_8")) st1
      = (Ok (VConstantLiteral ("&lv_font_" ++ lower "UNSCII_8")), st1) /\
    (forall t, lower t = lower "UNSCII_8" ->
       LvFont_validator LV_FONTS_sample requires_sample str_other_sample
         (VStr t) st1 = (Ok (VStr (lower "UNSCII_8")), st1)).
Proof.
  assert (H : lower "UNSCII_8" ∈ LV_FONTS_sample).
  { replace (lower "UNSCII_8") with "unscii_8" by (vm_compute; reflexivity).
    apply list_elem_of_further, list_elem_of_here. }
  split; [exact H | ].
  exact (builtin_font_emission LV_FONTS_sample requires_sample
           str_other_sample "UNSCII_8" st0 H).
Defined.

Lemma color_validated_emits_witness :
  (is_SCHEMA_EXTRACT (VStr "my_color") = false /\
   fst (color (VStr "my_color") st_declared) = Ok (VID "my_color")) /\
  ((exists n, int_value (VStr "my_color") = Some n /\
      VID "my_color" = VStr "my_color" /\
      color_retmapper (fun v => Ok v) (VID "my_color") st_declared
      = (Ok (VLvExpr "color_hex" [VHexInt n]), st_declared)) \/
   (exists name, VID "my_color" = VID name /\
      declared st_declared !! name = Some ColorStruct /\
      color_retmapper (fun v => Ok v) (VID "my_color") st_declared
      = (Ok (VLvExpr "color_from" [VMockObj (VID name)]),
         mk_state (declared st_declared) (lv_fonts_used st_declared)
                  (esphome_fonts_used st_declared)
                  ({[ CONF_COLOR ]} ∪ lvgl_components_required st_declared)))).
Proof.
  assert (H1 : is_SCHEMA_EXTRACT (VStr "my_color") = false) by reflexivity.
  assert (H2 : fst (color (VStr "my_color") st_declared) = Ok (VID "my_color"))
    by (vm_compute; reflexivity).
  split; [split; assumption | ].
  exact (proj2 (color_validated_emits (fun v => Ok v) (VStr "my_color")
                  st_declared) _ H1 H2).
Defined.

End lv_validation_more.
